(** * Australian Immigration Law RAG: frontend handlers and pipeline contracts

    A shallow embedding of the TypeScript frontend (types.ts, api.ts,
    components/QueryInterface.tsx, components/SystemStats.tsx) and of the
    retrieval-augmented-generation core that the specification describes.

    JavaScript strings are sequences of UTF-16 code units, JavaScript objects
    are ordered property lists, and the React handlers are functions from the
    component state and the outcome of the HTTP call to the trace of effects
    they perform (state setters, callbacks, requests). *)

From Stdlib Require Import String Ascii Bool Arith NArith ZArith QArith Lia List.
From Stdlib Require Import Qround Sorting.Sorted DecimalString.
From Stdlib Require DecimalPos DecimalN DecimalFacts.
Import ListNotations.

Set Warnings "-register-all".
Local Open Scope string_scope.
Local Open Scope list_scope.
Local Open Scope nat_scope.

(* ===================================================================== *)
(** ** JavaScript strings *)
(* ===================================================================== *)

Module JsString.

(** A string value is its sequence of UTF-16 code units. *)
Definition jsstring := list N.

(** ASCII literals of the source text. *)
Definition lit (s : string) : jsstring :=
  map N_of_ascii (list_ascii_of_string s).

(** [WhiteSpace] and [LineTerminator] code points of ECMAScript, the ones
    [String.prototype.trim] strips. *)
Definition isWhiteSpace (c : N) : bool :=
  ((c =? 9) || (c =? 10) || (c =? 11) || (c =? 12) || (c =? 13) || (c =? 32)
   || (c =? 160) || (c =? 5760) || ((8192 <=? c) && (c <=? 8202))
   || (c =? 8232) || (c =? 8233) || (c =? 8239) || (c =? 8287)
   || (c =? 12288) || (c =? 65279))%N.

Fixpoint trimStart (s : jsstring) : jsstring :=
  match s with
  | [] => []
  | c :: r => if isWhiteSpace c then trimStart r else s
  end.

Definition trimEnd (s : jsstring) : jsstring := rev (trimStart (rev s)).

Definition trim (s : jsstring) : jsstring := trimEnd (trimStart s).

(** Truthiness of a string: only the empty string is falsy. *)
Definition truthy (s : jsstring) : bool :=
  match s with [] => false | _ :: _ => true end.

Fixpoint startsWith (s p : jsstring) : bool :=
  match p, s with
  | [], _ => true
  | _ :: _, [] => false
  | a :: p', b :: s' => (a =? b)%N && startsWith s' p'
  end.

(** [s.includes(p)]: [p] occurs at some position of [s]. *)
Fixpoint includes (s p : jsstring) : bool :=
  startsWith s p ||
  match s with
  | [] => false
  | _ :: r => includes r p
  end.

(** The mathematical substring relation [includes] decides. *)
Definition Contains (s p : jsstring) : Prop :=
  exists pre post, s = pre ++ p ++ post.

(** [s.split(sep).pop()] for a one-unit separator: the part after the last
    occurrence of [sep], the whole string when there is none. *)
Fixpoint lastSegment (sep : N) (s : jsstring) : jsstring :=
  match s with
  | [] => []
  | c :: r =>
      if existsb (N.eqb sep) r then lastSegment sep r
      else if (c =? sep)%N then r else s
  end.

End JsString.
Import JsString.

(* ===================================================================== *)
(** ** JavaScript values and the interfaces of types.ts *)
(* ===================================================================== *)

Module Js.

(** Numbers are modelled by exact rationals; no property below depends on
    rounding. Objects keep their properties in source order. *)
Inductive value :=
| VUndefined
| VNull
| VBool (b : bool)
| VNum (q : Q)
| VStr (s : jsstring)
| VArr (items : list value)
| VObj (props : list (string * value)).

Fixpoint lookup (k : string) (props : list (string * value)) : option value :=
  match props with
  | [] => None
  | (k', v) :: rest => if String.eqb k k' then Some v else lookup k rest
  end.

(** Property read [o.k]: [None] is the TypeError of reading a property of
    [undefined] or [null]; a missing property reads as [undefined]. *)
Definition get (o : value) (k : string) : option value :=
  match o with
  | VUndefined | VNull => None
  | VObj props =>
      match lookup k props with
      | Some v => Some v
      | None => Some VUndefined
      end
  | _ => Some VUndefined
  end.

Fixpoint get_path (o : value) (path : list string) : option value :=
  match path with
  | [] => Some o
  | k :: rest =>
      match get o k with
      | Some v => get_path v rest
      | None => None
      end
  end.

(** A property that is there and is not [undefined]. *)
Definition present (o : value) (k : string) : bool :=
  match get o k with
  | Some VUndefined | None => false
  | Some _ => true
  end.

(** [a === b] where [b] is a string literal. *)
Definition strict_eq_str (a : value) (b : jsstring) : bool :=
  match a with
  | VStr s => if list_eq_dec N.eq_dec s b then true else false
  | _ => false
  end.

Definition is_string (v : value) : bool :=
  match v with VStr _ => true | _ => false end.

Definition is_number (v : value) : bool :=
  match v with VNum _ => true | _ => false end.

(** The fragment of TypeScript types that types.ts uses. A field is
    [(name, (optional, type))]. *)
Inductive ty :=
| TString
| TNumber
| TBoolean
| TAny
| TArray (elem : ty)
| TObject (fields : list (string * (bool * ty))).

Definition req (name : string) (t : ty) : string * (bool * ty) := (name, (false, t)).
Definition opt (name : string) (t : ty) : string * (bool * ty) := (name, (true, t)).

(** Structural conformance of a value to a type: a required property must
    be there with a value of its type, an optional one may be missing or
    [undefined]; properties the type does not name are allowed. *)
Fixpoint has_type (t : ty) (v : value) {struct t} : bool :=
  match t with
  | TString => is_string v
  | TNumber => is_number v
  | TBoolean => match v with VBool _ => true | _ => false end
  | TAny => true
  | TArray elem =>
      match v with
      | VArr items => forallb (has_type elem) items
      | _ => false
      end
  | TObject fields =>
      match v with
      | VObj props =>
          (fix check (fs : list (string * (bool * ty))) : bool :=
             match fs with
             | [] => true
             | (name, (optional, ft)) :: rest =>
                 match lookup name props with
                 | None => optional
                 | Some VUndefined => optional || has_type ft VUndefined
                 | Some x => has_type ft x
                 end && check rest
             end) fields
      | _ => false
      end
  end.

(** The check [has_type] makes of one field of an object type. *)
Definition field_ok (props : list (string * value)) (f : string * (bool * ty)) : bool :=
  match lookup (fst f) props with
  | None => fst (snd f)
  | Some VUndefined => fst (snd f) || has_type (snd (snd f)) VUndefined
  | Some x => has_type (snd (snd f)) x
  end.

(** A property that is missing, or is there and satisfies [P]. *)
Definition absent_or (P : value -> Prop) (o : value) (k : string) : Prop :=
  get o k = Some VUndefined \/ exists x, get o k = Some x /\ P x.

End Js.
Import Js.

Module Types.

Definition QueryRequest : ty :=
  TObject [ req "question" TString;
            opt "top_k" TNumber;
            opt "use_reranking" TBoolean ].

Definition Source : ty :=
  TObject [ req "id" TString;
            req "title" TString;
            req "source" TString;
            req "section" TString;
            req "similarity" TNumber;
            req "content_preview" TString ].

Definition QueryResponse : ty :=
  TObject [ req "status" TString;
            req "question" TString;
            opt "answer" TString;
            opt "sources" (TArray Source);
            opt "metadata"
              (TObject [ req "retrieval_method" TString;
                         req "documents_retrieved" TNumber;
                         req "generation_metadata"
                           (TObject [ req "model" TString;
                                      req "latency_seconds" TNumber;
                                      opt "tokens_used" TNumber ]) ]);
            opt "error" TString ].

Definition IngestResponse : ty :=
  TObject [ req "status" TString;
            opt "document_id" TString;
            opt "title" TString;
            opt "chunks_created" TNumber;
            opt "filename" TString;
            opt "metadata"
              (TObject [ req "source" TString;
                         req "section" TString;
                         req "type" TString;
                         req "title" TString;
                         req "filename" TString;
                         opt "upload_date" TString;
                         req "file_size" TNumber ]);
            opt "error" TString ].

Definition SystemStats : ty :=
  TObject [ req "vector_store"
              (TObject [ req "total_documents" TNumber;
                         req "collection_name" TString;
                         req "persist_directory" TString ]);
            req "retrieval"
              (TObject [ req "vector_store_stats" TAny;
                         req "embedding_model" TString;
                         req "embedding_dimension" TNumber;
                         req "retrieval_methods" (TArray TString) ]);
            req "generator"
              (TObject [ req "model" TString;
                         req "base_url" TString;
                         req "api_type" TString;
                         req "description" TString ]);
            req "pipeline_config"
              (TObject [ req "chunk_size" TNumber;
                         req "chunk_overlap" TNumber;
                         req "top_k_results" TNumber;
                         req "max_tokens" TNumber;
                         req "temperature" TNumber ]) ].

(** The two shapes the specification gives a response: an answer with its
    sources and generation metadata (model, latency, token usage), or an
    error description in place of answer and sources. *)
Definition answered (r : value) : bool :=
  present r "answer" && present r "sources"
  && match get_path r ["metadata"; "generation_metadata"] with
     | Some g => present g "model" && present g "latency_seconds"
                 && present g "tokens_used"
     | None => false
     end.

Definition errored (r : value) : bool :=
  present r "error" && negb (present r "answer") && negb (present r "sources").

Definition answer_or_error (r : value) : bool := answered r || errored r.

End Types.

(* ===================================================================== *)
(** ** api.ts: the HTTP client *)
(* ===================================================================== *)

Module Api.

Record AxiosConfig := {
  baseURL : jsstring;
  timeout : N;
  maxContentLength : N;
  maxBodyLength : N
}.

(** [import.meta.env.VITE_API_URL || '/api'] *)
Definition API_BASE_URL (VITE_API_URL : option jsstring) : jsstring :=
  match VITE_API_URL with
  | Some u => if truthy u then u else lit "/api"
  | None => lit "/api"
  end.

Definition api (VITE_API_URL : option jsstring) : AxiosConfig :=
  {| baseURL := API_BASE_URL VITE_API_URL;
     timeout := 300000;
     maxContentLength := 100 * 1024 * 1024;
     maxBodyLength := 100 * 1024 * 1024 |}.

Record File := { file_name : jsstring; file_size : N }.

Inductive FormValue :=
| FormFile (f : File)
| FormText (s : jsstring).

Inductive Request :=
| PostJson (path : string) (body : value)
| PostForm (path : string) (form : list (string * FormValue))
| Get (path : string).

(** An optional string argument is appended only when truthy. *)
Definition append_if (name : string) (arg : option jsstring)
  : list (string * FormValue) :=
  match arg with
  | Some s => if truthy s then [(name, FormText s)] else []
  | None => []
  end.

Module ragApi.

Definition query (request : value) : Request := PostJson "/query" request.

Definition ingestDocument (file : File) (source section docType : option jsstring)
  : Request :=
  PostForm "/ingest"
    ([("file", FormFile file)]
       ++ append_if "source" source
       ++ append_if "section" section
       ++ append_if "doc_type" docType).

Definition getSystemStats : Request := Get "/stats".

End ragApi.

(** How an awaited call ends: the promise resolves to [response.data] or
    rejects. *)
Inductive Outcome :=
| Resolved (data : value)
| Rejected.

(** An upload also reports progress events [(loaded, total)] on the way;
    [total] is [None] when the event has none. *)
Record Upload := {
  progressEvents : list (N * option N);
  outcome : Outcome
}.

(** [Math.round] on an exact rational: the nearest integer, the larger one
    on a tie. *)
Definition Math_round (q : Q) : Z := Qfloor (q + (1 # 2)).

(** The [onUploadProgress] callback of [ingestDocument]: with a progress
    listener and a truthy total, the rounded percentage is reported. *)
Definition onUploadProgress (ev : N * option N) : list Z :=
  match snd ev with
  | Some total =>
      if (total =? 0)%N then []
      else [Math_round (inject_Z (Z.of_N (fst ev) * 100) / inject_Z (Z.of_N total))]
  | None => []
  end.

End Api.
Import Api.

(* ===================================================================== *)
(** ** components/QueryInterface.tsx *)
(* ===================================================================== *)

Module QueryInterface.

(** What [formatAnswer] returns: the empty string, a [div] whose content is
    set through [dangerouslySetInnerHTML], or a [div] with a text child. *)
Inductive Rendered :=
| EmptyString
| InnerHtmlDiv (html : jsstring)
| TextDiv (children : jsstring).

Definition formatAnswer (text : jsstring) : Rendered :=
  if negb (truthy text) then EmptyString
  else if includes text (lit "<") && includes text (lit ">")
          && (includes text (lit "<p>") || includes text (lit "<strong>")
              || includes text (lit "<em>") || includes text (lit "<br>"))
  then InnerHtmlDiv text
  else TextDiv text.

(** The text a result shows verbatim, when it shows text. *)
Definition plain_text (r : Rendered) : option jsstring :=
  match r with
  | EmptyString => Some []
  | TextDiv t => Some t
  | InnerHtmlDiv _ => None
  end.

(** A string that holds both brackets and one of the four tags. *)
Definition HtmlLike (text : jsstring) : Prop :=
  Contains text (lit "<") /\ Contains text (lit ">")
  /\ (Contains text (lit "<p>") \/ Contains text (lit "<strong>")
      \/ Contains text (lit "<em>") \/ Contains text (lit "<br>")).

(** The component state ([useState] cells). *)
Record State := {
  question : jsstring;
  uploadFile : option File;
  uploadLoading : bool;
  uploadProgress : Z;
  uploadResult : option value;
  fileSizeError : option jsstring
}.

(** What a handler does, in order: prop callbacks, state setters, HTTP
    requests, logging and timers. *)
Inductive Effect :=
| onLoading (loading : bool)
| onQueryResult (result : value)
| http (r : Request)
| console_error (label : jsstring)
| preventDefault
| setUploadFile (f : option File)
| setFileSizeError (msg : option jsstring)
| setUploadResult (r : option value)
| setUploadLoading (b : bool)
| setUploadProgress (p : Z)
| setTimeout (callback : list Effect) (ms : N).

Definition apply_effect (st : State) (e : Effect) : State :=
  match e with
  | setUploadFile f =>
      {| question := question st; uploadFile := f;
         uploadLoading := uploadLoading st; uploadProgress := uploadProgress st;
         uploadResult := uploadResult st; fileSizeError := fileSizeError st |}
  | setFileSizeError m =>
      {| question := question st; uploadFile := uploadFile st;
         uploadLoading := uploadLoading st; uploadProgress := uploadProgress st;
         uploadResult := uploadResult st; fileSizeError := m |}
  | setUploadResult r =>
      {| question := question st; uploadFile := uploadFile st;
         uploadLoading := uploadLoading st; uploadProgress := uploadProgress st;
         uploadResult := r; fileSizeError := fileSizeError st |}
  | setUploadLoading b =>
      {| question := question st; uploadFile := uploadFile st;
         uploadLoading := b; uploadProgress := uploadProgress st;
         uploadResult := uploadResult st; fileSizeError := fileSizeError st |}
  | setUploadProgress p =>
      {| question := question st; uploadFile := uploadFile st;
         uploadLoading := uploadLoading st; uploadProgress := p;
         uploadResult := uploadResult st; fileSizeError := fileSizeError st |}
  | _ => st
  end.

(** The state once the setters of a trace have been applied (a timer's
    callback runs later and is not applied here). *)
Definition run (st : State) (trace : list Effect) : State :=
  fold_left apply_effect trace st.

Definition is_http (e : Effect) : bool :=
  match e with http _ => true | _ => false end.

(** The requests a trace sends. *)
Definition requests (trace : list Effect) : list Request :=
  flat_map (fun e => match e with http r => [r] | _ => [] end) trace.

Definition handleQuery (st : State) (server : Request -> Outcome) : list Effect :=
  if negb (truthy (trim (question st))) then []
  else
    let request := VObj [("question", VStr (trim (question st)))] in
    [onLoading true; http (ragApi.query request)]
      ++ match server (ragApi.query request) with
         | Resolved result => [onQueryResult result]
         | Rejected =>
             [console_error (lit "Query error:");
              onQueryResult
                (VObj [("status", VStr (lit "error"));
                       ("question", VStr (question st));
                       ("error", VStr (lit "Failed to process query. Please try again."))])]
         end
      ++ [onLoading false].

Definition handleKeyPress (key : jsstring) (shiftKey : bool)
    (st : State) (server : Request -> Outcome) : list Effect :=
  if strict_eq_str (VStr key) (lit "Enter") && negb shiftKey
  then preventDefault :: handleQuery st server
  else [].

(** The button is [disabled={!question.trim()}]. *)
Definition askDisabled (st : State) : bool := negb (truthy (trim (question st))).

Definition MAX_FILE_SIZE : N := 100 * 1024 * 1024.

Definition decimal (n : N) : jsstring := lit (NilZero.string_of_uint (N.to_uint n)).

(** [(size / (1024 * 1024)).toFixed(1)]: the division by a power of two is
    exact for a size below 2^53, and [toFixed] picks the nearest tenth, the
    larger one on a tie. *)
Definition megabytes_toFixed1 (size : N) : jsstring :=
  let tenths := ((20 * size + 1048576) / 2097152)%N in
  decimal (tenths / 10) ++ lit "." ++ decimal (tenths mod 10).

Definition fileTooLarge (size : N) : jsstring :=
  lit "File too large. Maximum size is 100MB. Selected file: "
    ++ megabytes_toFixed1 size ++ lit "MB".

Definition uploadFailed : list Effect :=
  [console_error (lit "Upload error:");
   setUploadResult
     (Some (VObj [("status", VStr (lit "error"));
                  ("error", VStr (lit "Failed to upload document. Please try again."))]));
   setUploadLoading false;
   setUploadProgress 0].

Definition handleFileUpload (st : State) (selectedFile : option File)
    (server : Request -> Upload) : list Effect :=
  match (match selectedFile with Some f => Some f | None => uploadFile st end) with
  | None => []
  | Some fileToUpload =>
      let r := ragApi.ingestDocument fileToUpload None None (Some (lit "uploaded")) in
      [setUploadLoading true; setUploadProgress 0; setUploadResult None; http r]
        ++ map setUploadProgress (flat_map onUploadProgress (progressEvents (server r)))
        ++ match outcome (server r) with
           | Resolved result =>
               setUploadResult (Some result) ::
               match get result "status" with
               | Some status =>
                   if strict_eq_str status (lit "success")
                   then [setUploadProgress 100;
                         setTimeout [setUploadLoading false;
                                     setUploadProgress 0;
                                     setFileSizeError None] 1500]
                   else [setUploadLoading false; setUploadProgress 0]
               | None => uploadFailed
               end
           | Rejected => uploadFailed
           end
  end.

(** [files0] is [e.target.files?.[0]]. *)
Definition handleFileSelect (st : State) (files0 : option File)
    (server : Request -> Upload) : list Effect :=
  match files0 with
  | None => [setUploadFile None; setFileSizeError None]
  | Some file =>
      if (MAX_FILE_SIZE <? file_size file)%N
      then [setFileSizeError (Some (fileTooLarge (file_size file)));
            setUploadFile None]
      else [setFileSizeError None; setUploadFile (Some file); setUploadResult None]
             ++ handleFileUpload st (Some file) server
  end.

End QueryInterface.

(* ===================================================================== *)
(** ** components/SystemStats.tsx *)
(* ===================================================================== *)

Module SystemStatsPanel.

(** A JSX child: literal text or an interpolated expression. *)
Inductive Child :=
| Text (s : jsstring)
| Expr (v : value).

Record Card := {
  title : jsstring;
  figure : list Child;
  detail : list Child
}.

Inductive View :=
| LoadingView
| ErrorView (message : jsstring)
| NullView
| CardsView (cards : list Card).

Definition bind {A B} (x : option A) (f : A -> option B) : option B :=
  match x with Some a => f a | None => None end.

(** What [fetchStats] does, in order. *)
Inductive Effect :=
| setLoading (b : bool)
| setError (e : option jsstring)
| setStats (data : value)
| http (r : Request)
| console_error (label : jsstring).

Definition fetchStats (server : Request -> Outcome) : list Effect :=
  [setLoading true; setError None; http ragApi.getSystemStats]
    ++ match server ragApi.getSystemStats with
       | Resolved data => [setStats data]
       | Rejected => [setError (Some (lit "Failed to load system statistics"));
                      console_error (lit "Error fetching stats:")]
       end
    ++ [setLoading false].

(** The component, as the function of its state that it renders; [None]
    is a TypeError thrown by a property read of [undefined] or by calling
    [split] on a value that has none. *)
Definition SystemStats (loading : bool) (error : option jsstring) (stats : option value)
  : option View :=
  if loading then Some LoadingView
  else match error with
       | Some (c :: m) => Some (ErrorView (c :: m))
       | _ =>
         match stats with
         | None => Some NullView
         | Some stats =>
             bind (get_path stats ["vector_store"; "total_documents"]) (fun total_documents =>
             bind (get_path stats ["vector_store"; "collection_name"]) (fun collection_name =>
             bind (get_path stats ["retrieval"; "embedding_dimension"]) (fun embedding_dimension =>
             bind (get_path stats ["retrieval"; "embedding_model"]) (fun embedding_model =>
             bind (match embedding_model with
                   | VStr m => Some (VStr (lastSegment 47 m))
                   | _ => None
                   end) (fun model_name =>
             bind (get_path stats ["pipeline_config"; "max_tokens"]) (fun max_tokens =>
             bind (get_path stats ["pipeline_config"; "top_k_results"]) (fun top_k_results =>
             bind (get_path stats ["pipeline_config"; "chunk_size"]) (fun chunk_size =>
             Some (CardsView
               [ {| title := lit "Vector Database";
                    figure := [Expr total_documents; Text (lit " docs")];
                    detail := [Expr collection_name] |};
                 {| title := lit "Embeddings";
                    figure := [Expr embedding_dimension; Text (lit " dims")];
                    detail := [Expr model_name] |};
                 {| title := lit "AI Model";
                    figure := [Expr max_tokens; Text (lit " tokens")];
                    detail := [Text (lit "gpt-oss-20b " ++ [8226%N] ++ lit " MoE")] |};
                 {| title := lit "Retrieval";
                    figure := [Text (lit "Top-K: "); Expr top_k_results];
                    detail := [Expr chunk_size; Text (lit " token chunks")] |} ])))))))))
         end
       end.

(** The expressions a view interpolates. *)
Definition shown (v : View) : list value :=
  match v with
  | CardsView cards =>
      flat_map (fun c =>
        flat_map (fun ch => match ch with Expr x => [x] | Text _ => [] end)
                 (figure c ++ detail c)) cards
  | _ => []
  end.

End SystemStatsPanel.

(* ===================================================================== *)
(** ** Sample inputs of the frontend *)
(* ===================================================================== *)

Module Samples.
Import QueryInterface.

Definition idle (q : jsstring) : State :=
  {| question := q; uploadFile := None; uploadLoading := false;
     uploadProgress := 0%Z; uploadResult := None; fileSizeError := None |}.

Definition act_pdf : File :=
  {| file_name := lit "act.pdf"; file_size := 157286400 |}.

Definition offline_upload (r : Request) : Upload :=
  {| progressEvents := []; outcome := Rejected |}.

Definition offline (r : Request) : Outcome := Rejected.

Definition partner_visa : value :=
  VObj [("id", VStr (lit "doc1_0")); ("title", VStr (lit "Partner visas"));
        ("source", VStr (lit "Migration Act")); ("section", VStr (lit "Unknown"));
        ("similarity", VNum (87 # 100));
        ("content_preview", VStr (lit "A partner visa requires"))].

(** A response with a status and a question and nothing else. *)
Definition bare_response : value :=
  VObj [("status", VStr (lit "success")); ("question", VStr (lit "q"))].

(** An answered response whose generation metadata has no token count. *)
Definition response_without_usage : value :=
  VObj [("status", VStr (lit "success")); ("question", VStr (lit "q"));
        ("answer", VStr (lit "<p>a</p>"));
        ("sources", VArr [partner_visa]);
        ("metadata",
         VObj [("retrieval_method", VStr (lit "semantic"));
               ("documents_retrieved", VNum 1);
               ("generation_metadata",
                VObj [("model", VStr (lit "gpt-oss-20b"));
                      ("latency_seconds", VNum (3 # 2))])])].

Definition full_response : value :=
  VObj [("status", VStr (lit "success")); ("question", VStr (lit "q"));
        ("answer", VStr (lit "<p>a</p>"));
        ("sources", VArr [partner_visa]);
        ("metadata",
         VObj [("retrieval_method", VStr (lit "semantic"));
               ("documents_retrieved", VNum 1);
               ("generation_metadata",
                VObj [("model", VStr (lit "gpt-oss-20b"));
                      ("latency_seconds", VNum (3 # 2));
                      ("tokens_used", VNum 420)])])].

Definition stats : value :=
  VObj [("vector_store",
         VObj [("total_documents", VNum 42);
               ("collection_name", VStr (lit "immigration_docs"));
               ("persist_directory", VStr (lit "/app/data/chroma_db"))]);
        ("retrieval",
         VObj [("vector_store_stats", VNull);
               ("embedding_model", VStr (lit "sentence-transformers/all-MiniLM-L6-v2"));
               ("embedding_dimension", VNum 384);
               ("retrieval_methods", VArr [VStr (lit "semantic")])]);
        ("generator",
         VObj [("model", VStr (lit "openai/gpt-oss-20b"));
               ("base_url", VStr (lit "https://router.huggingface.co/v1"));
               ("api_type", VStr (lit "chat"));
               ("description", VStr (lit "gpt-oss-20b"))]);
        ("pipeline_config",
         VObj [("chunk_size", VNum 512); ("chunk_overlap", VNum 50);
               ("top_k_results", VNum 5); ("max_tokens", VNum 1024);
               ("temperature", VNum (1 # 10))])].

End Samples.

(* ===================================================================== *)
(** ** The retrieval-augmented-generation core *)
(* ===================================================================== *)

(** The backend of the README's project structure (backend/rag/chunking.py,
    embeddings.py, vector_store.py, retriever.py, generator.py, pipeline.py)
    is missing; the definitions of this module follow sections 3, 4, 6 and 7
    of the specification. *)
Module Core.

(** Modelled from the spec: the structured results of section 7 ("all
    errors propagate as structured results"); the backend that raises them
    is missing. *)
Inductive result (A : Type) (E : Type) :=
| Ok (a : A)
| Err (e : E).
Arguments Ok {A E} a.
Arguments Err {A E} e.

(** Modelled from the spec: the failures that the missing backend
    components raise (sections 4.1 to 4.6), and the empty question of
    section 7. *)
Inductive Failure :=
| EmptyQuestion
| UnsupportedFormat
| InvalidChunkingConfig
| ExtractionFailure
| EmbeddingServiceError
| IndexUnavailable
| DimensionMismatch
| GenerationTimeout
| GenerationServiceError
| ContextBudgetExceeded.

(** Modelled from the spec: the error kinds of section 7, whose backend
    definitions are missing. [InputError] is a bad file type, an empty
    question or an invalid chunking configuration. *)
Definition InputError (f : Failure) : bool :=
  match f with
  | EmptyQuestion | UnsupportedFormat | InvalidChunkingConfig => true
  | _ => false
  end.

(** Modelled from the spec: [TimeoutError] of section 7, the generation
    deadline exceeded (missing backend). *)
Definition TimeoutError (f : Failure) : bool :=
  match f with GenerationTimeout => true | _ => false end.

(** Modelled from the spec: [DependencyError] of section 7, the embedding
    service, the vector index or the inference endpoint unreachable or
    erroring (missing backend). *)
Definition DependencyError (f : Failure) : bool :=
  match f with
  | EmbeddingServiceError | IndexUnavailable | GenerationServiceError => true
  | _ => false
  end.

(** Modelled from the spec: the tokenizer that the missing chunking.py and
    generator.py count tokens with ("tokenize", section 4.2). *)
Record Tokenizer := {
  token : Type;
  tokenize : string -> list token;
  detokenize : list token -> string
}.

(** Modelled from the spec: the "normalized text" the missing Document
    Loader hands to the Chunker, read as text the tokenizer represents
    without loss. *)
Definition Normalized (tk : Tokenizer) (T : string) : Prop :=
  detokenize tk (tokenize tk T) = T.

(** Modelled from the spec: the document metadata of section 3 that the
    missing backend copies onto every chunk. *)
Record Metadata := {
  title : string;
  source : string;
  section : string;
  doc_type : string
}.

(** Modelled from the spec: the Document of section 3 (missing backend). *)
Record Document := {
  document_id : string;
  metadata : Metadata;
  raw_text : string;
  upload_timestamp : N;
  file_size : N
}.

(** Modelled from the spec: the two integers of the missing Chunker,
    "target chunk size and overlap size, both expressed in token units". *)
Record ChunkingConfig := {
  chunk_size : nat;
  overlap : nat
}.

(** Modelled from the spec: the default configuration of the missing
    Chunker, "chunk size 512 tokens, overlap 50 tokens". *)
Definition default_chunking : ChunkingConfig :=
  {| chunk_size := 512; overlap := 50 |}.

Section Chunker.

Variable tk : Tokenizer.

(** Modelled from the spec: the Chunk of section 3 (missing chunking.py),
    identified by its parent document and its ordinal position. *)
Record Chunk := {
  parent : string;
  ordinal : nat;
  span : list (token tk);
  chunk_metadata : Metadata
}.

(** Modelled from the spec: the "token-bounded text span" of a chunk of the
    missing chunking.py, as text. *)
Definition chunk_text (c : Chunk) : string := detokenize tk (span c).

(** Modelled from the spec: the loop of the missing chunking.py, "slide a
    window of chunk_size tokens advancing by chunk_size - overlap tokens
    per step until the text is exhausted; the last window may be shorter
    than chunk_size (never zero-length, never dropped)". The window at
    [start] is [tokens[start : start + size]]; the text is exhausted once a
    window reaches its end. [fuel] bounds the number of windows. *)
Fixpoint slide (fuel size step start : nat) (tokens : list (token tk))
  : list (list (token tk)) :=
  match fuel with
  | O => []
  | S fuel' =>
      if length tokens <=? start then []
      else firstn size (skipn start tokens)
             :: (if length tokens <=? start + size then []
                 else slide fuel' size step (start + step) tokens)
  end.

(** Modelled from the spec: the windows of a token sequence under a
    configuration (missing chunking.py); one window per token is fuel
    enough, each step advancing by at least one token. *)
Definition windows (cfg : ChunkingConfig) (tokens : list (token tk))
  : list (list (token tk)) :=
  slide (length tokens) (chunk_size cfg) (chunk_size cfg - overlap cfg) 0 tokens.

(** Modelled from the spec: the "ordered sequence of chunks" of one
    document, each with its ordinal and the document's metadata (missing
    chunking.py). *)
Fixpoint number (doc : Document) (i : nat) (ws : list (list (token tk)))
  : list Chunk :=
  match ws with
  | [] => []
  | w :: rest =>
      {| parent := document_id doc; ordinal := i; span := w;
         chunk_metadata := metadata doc |} :: number doc (S i) rest
  end.

(** Modelled from the spec: the Chunker of section 4.2 (missing
    chunking.py): [InvalidChunkingConfig] when the overlap is not below the
    chunk size, no chunk for an empty text. *)
Definition chunker (cfg : ChunkingConfig) (doc : Document)
  : result (list Chunk) Failure :=
  if chunk_size cfg <=? overlap cfg then Err InvalidChunkingConfig
  else Ok (number doc 0 (windows cfg (tokenize tk (raw_text doc)))).

(** Modelled from the spec: "the concatenation of chunks with overlaps
    removed" of section 8, for the chunks of the missing chunking.py: a
    chunk after the first gives up the [overlap] tokens it repeats from its
    predecessor. *)
Definition deoverlap (cfg : ChunkingConfig) (chunks : list Chunk)
  : list (token tk) :=
  match chunks with
  | [] => []
  | c :: rest => span c ++ concat (map (fun c' => skipn (overlap cfg) (span c')) rest)
  end.

(** Modelled from the spec: the text that the chunks of the missing
    chunking.py, "concatenated and de-overlapped", reconstruct. *)
Definition reconstruct (cfg : ChunkingConfig) (chunks : list Chunk) : string :=
  detokenize tk (deoverlap cfg chunks).

End Chunker.

Arguments parent {tk} c.
Arguments ordinal {tk} c.
Arguments span {tk} c.
Arguments chunk_metadata {tk} c.

(** *** Vector index, retriever, generator and query flow *)

(** Modelled from the spec: the Embedding of section 3, a fixed-length
    vector (missing embeddings.py); its coordinates are exact rationals. *)
Definition Embedding := list Q.

(** Modelled from the spec: the generation metadata of section 3, "model
    identifier, latency, token usage" (missing generator.py). *)
Record GenerationMetadata := {
  model : string;
  latency_seconds : Q;
  tokens_used : option nat
}.

(** Modelled from the spec: the "one complete text payload with
    token-usage counters" of section 6 (missing generator.py). *)
Record Completion := {
  text : string;
  usage : GenerationMetadata
}.

Section Query.

Variable tk : Tokenizer.

(** Modelled from the spec: the context part of the prompt of the missing
    generator.py: the numbered source excerpts, or the explicit statement
    that no grounding context was found (section 4.7). *)
Inductive Context :=
| NoGroundingContext
| Excerpts (numbered : list (nat * string)).

(** Modelled from the spec: the prompt of the missing generator.py,
    "system instructions + numbered source excerpts + question". *)
Record Prompt := {
  instructions : string;
  context : Context;
  prompt_question : string
}.

(** Modelled from the spec: the request of section 6 to the inference
    endpoint, "model identifier, prompt, max output tokens, temperature,
    and (for streaming) a flag" (missing generator.py). *)
Record GenerationRequest := {
  request_model : string;
  prompt : Prompt;
  max_tokens : nat;
  temperature : Q;
  stream : bool
}.

(** Modelled from the spec: the external collaborators of the missing
    backend, passed in as dependencies (section 9): the sentence-embedding
    model, the similarity metric of the index, the finer relevance signal
    of the reranker, and the inference endpoint. *)
Record Services := {
  embed : string -> result Embedding Failure;
  similarity : Embedding -> Embedding -> Q;
  rerank_signal : string -> Chunk tk -> Q;
  infer : GenerationRequest -> result Completion Failure
}.

(** Modelled from the spec: the configuration of the missing pipeline.py
    that the statistics surface of section 6 reports, with the defaults a
    request without [top_k] or [use_reranking] falls back to. *)
Record PipelineConfig := {
  chunking : ChunkingConfig;
  top_k_results : nat;
  use_reranking : bool;
  rerank_factor : nat;
  generator_model : string;
  system_instructions : string;
  context_window : nat;
  generation_max_tokens : nat;
  generation_temperature : Q
}.

(** Modelled from the spec: the IndexEntry of section 3 (missing
    vector_store.py); the chunk carries its metadata. *)
Record IndexEntry := {
  entry_embedding : Embedding;
  entry_chunk : Chunk tk
}.

(** Modelled from the spec: the Vector Index of section 4.4 (missing
    vector_store.py). It keeps its entries in insertion order; [reachable]
    tells whether the backing store answers. *)
Record VectorIndex := {
  reachable : bool;
  entries : list IndexEntry
}.

(** Modelled from the spec: [count()] of the missing vector_store.py,
    "total stored entries". *)
Definition count (idx : VectorIndex) : nat := length (entries idx).

(** Modelled from the spec: equality of chunk identifiers, the key of the
    missing vector_store.py. *)
Definition same_chunk (a b : Chunk tk) : bool :=
  String.eqb (parent a) (parent b) && (ordinal a =? ordinal b).

(** Modelled from the spec: "stores or replaces an entry keyed by chunk
    identifier" (missing vector_store.py). *)
Fixpoint put (e : IndexEntry) (es : list IndexEntry) : list IndexEntry :=
  match es with
  | [] => [e]
  | e' :: rest =>
      if same_chunk (entry_chunk e) (entry_chunk e') then e :: rest
      else e' :: put e rest
  end.

(** Modelled from the spec: [upsert] of the missing vector_store.py; it
    fails with [IndexUnavailable] when the store cannot be reached and with
    [DimensionMismatch] on a vector whose length disagrees with the
    index. *)
Definition upsert (c : Chunk tk) (v : Embedding) (idx : VectorIndex)
  : result VectorIndex Failure :=
  if negb (reachable idx) then Err IndexUnavailable
  else match entries idx with
       | e :: _ =>
           if length v =? length (entry_embedding e)
           then Ok {| reachable := true;
                      entries := put {| entry_embedding := v; entry_chunk := c |} (entries idx) |}
           else Err DimensionMismatch
       | [] => Ok {| reachable := true;
                     entries := [{| entry_embedding := v; entry_chunk := c |}] |}
       end.

(** Modelled from the spec: an element of the RetrievalResult of section 3
    (missing retriever.py): a chunk with its similarity and, after
    reranking, its rerank score. *)
Record Retrieved := {
  chunk : Chunk tk;
  score : Q;
  rerank_score : option Q
}.

(** Modelled from the spec: the ranking of the missing vector_store.py and
    retriever.py, higher is better, "breaking exact ties by insertion order
    (earliest first)". The new element comes from an earlier position than
    the ones already placed, so it goes before any element it ties with. *)
Fixpoint insert_desc {A} (key : A -> Q) (x : A) (l : list A) : list A :=
  match l with
  | [] => [x]
  | y :: rest =>
      if Qle_bool (key y) (key x) then x :: l
      else y :: insert_desc key x rest
  end.

(** Modelled from the spec: the stable best-first sort behind the ranking
    of the missing vector_store.py and retriever.py. *)
Definition sort_desc {A} (key : A -> Q) (l : list A) : list A :=
  fold_right (insert_desc key) [] l.

Variable sv : Services.

(** Modelled from the spec: [query(vector, k)] of the missing
    vector_store.py returns the k nearest entries, most similar first,
    ties in insertion order. *)
Definition index_query (idx : VectorIndex) (v : Embedding) (k : nat)
  : result (list Retrieved) Failure :=
  if negb (reachable idx) then Err IndexUnavailable
  else Ok (firstn k
             (sort_desc score
                (map (fun e => {| chunk := entry_chunk e;
                                  score := similarity sv v (entry_embedding e);
                                  rerank_score := None |})
                     (entries idx)))).

(** Modelled from the spec: the calls that the missing pipeline.py makes
    to its collaborators, in order. *)
Inductive Call :=
| CallEmbed (question : string)
| CallIndex (v : Embedding) (k : nat)
| CallRerank (question : string) (candidates : nat)
| CallGenerate (r : GenerationRequest).

(** Modelled from the spec: the score a result of the missing retriever.py
    is ranked by: the rerank score when it has one, else the similarity. *)
Definition ranking (r : Retrieved) : Q :=
  match rerank_score r with
  | Some s => s
  | None => score r
  end.

(** Modelled from the spec: reranking "rescans candidates with a
    finer-grained relevance signal" (missing retriever.py). *)
Definition rescore (question : string) (r : Retrieved) : Retrieved :=
  {| chunk := chunk r; score := score r;
     rerank_score := Some (rerank_signal sv question (chunk r)) |}.

(** Modelled from the spec: the Retriever of section 4.5 (missing
    retriever.py): embed the question, fetch [top_k] candidates, or
    [top_k * rerank_factor] to rescore, re-sort and narrow to [top_k] when
    reranking is enabled. It returns the calls made together with the
    result or the failure of the step that raised it. *)
Definition retrieve (cfg : PipelineConfig) (idx : VectorIndex)
    (question : string) (top_k : nat) (use_reranking : bool)
  : list Call * result (list Retrieved) Failure :=
  match embed sv question with
  | Err f => ([CallEmbed question], Err f)
  | Ok v =>
      let k := if use_reranking then top_k * rerank_factor cfg else top_k in
      match index_query idx v k with
      | Err f => ([CallEmbed question; CallIndex v k], Err f)
      | Ok candidates =>
          if use_reranking
          then ([CallEmbed question; CallIndex v k;
                 CallRerank question (length candidates)],
                Ok (firstn top_k (sort_desc ranking (map (rescore question) candidates))))
          else ([CallEmbed question; CallIndex v k], Ok candidates)
      end
  end.

(** Modelled from the spec: the token count a budget of the missing
    generator.py is measured in. *)
Definition tokens_of (s : string) : nat := length (tokenize tk s).

(** Modelled from the spec: "truncate lowest-ranked sources first" of the
    missing generator.py: sources are dropped from the low-ranked end
    until the rest fits. *)
Fixpoint fit (budget : nat) (sources : list (nat * string)) : list (nat * string) :=
  match sources with
  | [] => []
  | s :: rest =>
      if tokens_of (snd s) <=? budget
      then s :: fit (budget - tokens_of (snd s)) rest
      else []
  end.

(** Modelled from the spec: the "numbered source excerpts" of the missing
    generator.py. *)
Fixpoint enumerate (i : nat) (rs : list Retrieved) : list (nat * string) :=
  match rs with
  | [] => []
  | r :: rest => (i, chunk_text tk (chunk r)) :: enumerate (S i) rest
  end.

(** Modelled from the spec: prompt assembly of the missing generator.py
    (section 4.6) and the rule of section 4.7 for an empty retrieval;
    [ContextBudgetExceeded] only when the instructions and the question
    alone exceed the window. *)
Definition build_prompt (cfg : PipelineConfig) (question : string)
    (rs : list Retrieved) : result Prompt Failure :=
  let fixed := tokens_of (system_instructions cfg) + tokens_of question in
  if context_window cfg <? fixed then Err ContextBudgetExceeded
  else Ok {| instructions := system_instructions cfg;
             context := match rs with
                        | [] => NoGroundingContext
                        | _ :: _ => Excerpts (fit (context_window cfg - fixed) (enumerate 1 rs))
                        end;
             prompt_question := question |}.

(** Modelled from the spec: the status of a response of the missing
    pipeline.py, success or the failure that stopped the flow. *)
Inductive Status :=
| success
| failed (f : Failure).

(** Modelled from the spec: a cited source of section 3, a "Chunk summary
    with similarity" (missing pipeline.py). *)
Record SourceSummary := {
  source_chunk : Chunk tk;
  source_similarity : Q
}.

(** Modelled from the spec: the QueryResponse of section 3 as the missing
    pipeline.py builds it. *)
Record QueryResponse := {
  status : Status;
  question : string;
  answer : option string;
  sources : list SourceSummary;
  generation_metadata : option GenerationMetadata
}.

(** Modelled from the spec: the cited sources of a retrieval result
    (missing pipeline.py). *)
Definition cite (rs : list Retrieved) : list SourceSummary :=
  map (fun r => {| source_chunk := chunk r; source_similarity := score r |}) rs.

(** Modelled from the spec: the failed response of the missing
    pipeline.py, "a status plus error description", with the sources of a
    retrieval that had completed (scenario D). *)
Definition failure (f : Failure) (question : string) (rs : list Retrieved)
  : QueryResponse :=
  {| status := failed f; question := question; answer := None;
     sources := cite rs; generation_metadata := None |}.

(** Modelled from the spec: the "empty question" test of the missing
    pipeline.py. *)
Definition is_empty (s : string) : bool :=
  match s with EmptyString => true | String _ _ => false end.

(** Modelled from the spec: the query flow of the missing pipeline.py
    (section 4.7), received, retrieved, generated, formatted, done,
    short-circuiting on the first failure; an empty question is refused
    before any step (section 7). *)
Definition query (cfg : PipelineConfig) (idx : VectorIndex)
    (question : string) (topK : option nat) (useReranking : option bool)
  : list Call * QueryResponse :=
  if is_empty question then ([], failure EmptyQuestion question [])
  else
    let top_k := match topK with Some k => k | None => top_k_results cfg end in
    let rr := match useReranking with Some b => b | None => use_reranking cfg end in
    match retrieve cfg idx question top_k rr with
    | (calls, Err f) => (calls, failure f question [])
    | (calls, Ok rs) =>
        match build_prompt cfg question rs with
        | Err f => (calls, failure f question rs)
        | Ok p =>
            let r := {| request_model := generator_model cfg; prompt := p;
                        max_tokens := generation_max_tokens cfg;
                        temperature := generation_temperature cfg;
                        stream := false |} in
            match infer sv r with
            | Err f => (calls ++ [CallGenerate r], failure f question rs)
            | Ok c =>
                (calls ++ [CallGenerate r],
                 {| status := success; question := question;
                    answer := Some (text c); sources := cite rs;
                    generation_metadata := Some (usage c) |})
            end
        end
    end.

(** Modelled from the spec: the calls of a flow of the missing pipeline.py
    that reach the Generator. *)
Definition generator_calls (calls : list Call) : list GenerationRequest :=
  flat_map (fun c => match c with CallGenerate r => [r] | _ => [] end) calls.

(** Modelled from the spec: the calls of a flow of the missing pipeline.py
    that reach the Embedding Generator. *)
Definition embedding_calls (calls : list Call) : list string :=
  flat_map (fun c => match c with CallEmbed q => [q] | _ => [] end) calls.

(** Modelled from the spec: "ordered best-first" of section 4.5 (missing
    retriever.py): every element scores at least as high as all after
    it. *)
Definition best_first (key : Retrieved -> Q) (rs : list Retrieved) : Prop :=
  StronglySorted (fun a b => (key b <= key a)%Q) rs.

End Query.

Arguments entry_embedding {tk} i.
Arguments entry_chunk {tk} i.
Arguments reachable {tk} v.
Arguments entries {tk} v.
Arguments count {tk} idx.
Arguments upsert {tk} c v idx.
Arguments embed {tk} s _.
Arguments similarity {tk} s _ _.
Arguments rerank_signal {tk} s _ _.
Arguments infer {tk} s _.
Arguments chunk {tk} r.
Arguments score {tk} r.
Arguments rerank_score {tk} r.
Arguments ranking {tk} r.
Arguments rescore {tk} sv question r.
Arguments index_query {tk} sv idx v k.
Arguments retrieve {tk} sv cfg idx question top_k use_reranking.
Arguments status {tk} q.
Arguments question {tk} q.
Arguments answer {tk} q.
Arguments sources {tk} q.
Arguments generation_metadata {tk} q.
Arguments source_chunk {tk} s.
Arguments source_similarity {tk} s.
Arguments cite {tk} rs.
Arguments failure {tk} f question rs.
Arguments query {tk} sv cfg idx question topK useReranking.
Arguments best_first {tk} key rs.

End Core.

(* ===================================================================== *)
(** ** Sample inputs of the core *)
(* ===================================================================== *)

Module CoreSamples.
Import Core.

(** A tokenizer with one token per character. *)
Definition characters : Tokenizer :=
  {| token := ascii;
     tokenize := list_ascii_of_string;
     detokenize := string_of_list_ascii |}.

Definition act : Metadata :=
  {| title := "Migration Act 1958"; source := "legislation";
     section := "Part 2"; doc_type := "uploaded" |}.

Definition document (text : string) : Document :=
  {| document_id := "doc-1"; metadata := act; raw_text := text;
     upload_timestamp := 0; file_size := N.of_nat (String.length text) |}.

(** A text of 1200 tokens: the alphabet, over and over. *)
Definition long_text : string :=
  string_of_list_ascii (map (fun i => ascii_of_nat (97 + i mod 26)) (seq 0 1200)).

Definition short_text : string := "a visa is a permission to enter".

Definition small_windows : ChunkingConfig := {| chunk_size := 8; overlap := 3 |}.

Definition answer_of (r : GenerationRequest) : result Completion Failure :=
  Ok {| text := "I found no grounding context for this question.";
        usage := {| model := request_model r; latency_seconds := 3 # 2;
                    tokens_used := Some 40 |} |}.

Definition services : Services characters :=
  {| embed := fun _ => Ok [1%Q; 0%Q];
     similarity := fun _ _ => 0%Q;
     rerank_signal := fun _ _ => 0%Q;
     infer := answer_of |}.

Definition config : PipelineConfig :=
  {| chunking := default_chunking;
     top_k_results := 5;
     use_reranking := false;
     rerank_factor := 3;
     generator_model := "openai/gpt-oss-20b";
     system_instructions := "Answer from the sources.";
     context_window := 4096;
     generation_max_tokens := 1024;
     generation_temperature := 1 # 10 |}.

Definition empty_index : VectorIndex characters :=
  {| reachable := true; entries := [] |}.

Definition dot (a b : Embedding) : Q :=
  fold_right Qplus 0%Q (map (fun p => (fst p * snd p)%Q) (combine a b)).

Definition piece (i : nat) (t : string) : Chunk characters :=
  {| parent := "doc-1"; ordinal := i; span := tokenize characters t;
     chunk_metadata := act |}.

(** Four indexed chunks; the first and the third tie on the first axis. *)
Definition small_index : VectorIndex characters :=
  {| reachable := true;
     entries :=
       [ {| entry_embedding := [1%Q; 0%Q]; entry_chunk := piece 0 "partner visa" |};
         {| entry_embedding := [0%Q; 1%Q]; entry_chunk := piece 1 "student visa" |};
         {| entry_embedding := [1%Q; 0%Q]; entry_chunk := piece 2 "partner test" |};
         {| entry_embedding := [1 # 2; 1 # 2]; entry_chunk := piece 3 "character test" |} ] |}.

(** A reranker that prefers later chunks. *)
Definition ranked_services : Services characters :=
  {| embed := fun _ => Ok [1%Q; 0%Q];
     similarity := dot;
     rerank_signal := fun _ c => inject_Z (Z.of_nat (ordinal c));
     infer := answer_of |}.

Definition partner_question : string :=
  "What are the requirements for a partner visa?".

End CoreSamples.

(* ===================================================================== *)
(** ** App.tsx, the conversation of QueryInterface.tsx, the panel state *)
(* ===================================================================== *)

Module JsTruth.

(** Truthiness of a value: [undefined], [null], [false], [0] and the empty
    string are falsy. *)
Definition truthy_value (v : value) : bool :=
  match v with
  | VUndefined | VNull => false
  | VBool b => b
  | VNum q => negb (Qeq_bool q 0)
  | VStr s => truthy s
  | VArr _ | VObj _ => true
  end.

(** A string without white space at either end, and not empty. *)
Definition Trimmed (s : jsstring) : Prop :=
  (exists c r, s = c :: r /\ isWhiteSpace c = false)
  /\ (exists r c, s = r ++ [c] /\ isWhiteSpace c = false).

Definition Blank (s : jsstring) : Prop :=
  Forall (fun c => isWhiteSpace c = true) s.

End JsTruth.
Import JsTruth.

Module Timers.
Import QueryInterface.

(** The callbacks the timers of a trace run once they fire. *)
Definition callbacks (trace : list Effect) : list Effect :=
  flat_map (fun e => match e with setTimeout callback _ => callback | _ => [] end) trace.

(** The state once the trace has run and its timers have fired. *)
Definition settle (st : State) (trace : list Effect) : State :=
  run (run st trace) (callbacks trace).

(** The [try]/[catch] of [handleFileUpload] once the request has ended:
    the effects after the progress reports. *)
Definition ending (o : Outcome) : list Effect :=
  match o with
  | Resolved result =>
      setUploadResult (Some result) ::
      match get result "status" with
      | Some status =>
          if strict_eq_str status (lit "success")
          then [setUploadProgress 100;
                setTimeout [setUploadLoading false;
                            setUploadProgress 0;
                            setFileSizeError None] 1500]
          else [setUploadLoading false; setUploadProgress 0]
      | None => uploadFailed
      end
  | Rejected => uploadFailed
  end.

(** The error object [handleFileUpload] stores when the upload fails. *)
Definition uploadError : value :=
  VObj [("status", VStr (lit "error"));
        ("error", VStr (lit "Failed to upload document. Please try again."))].

(** The progress banner of the upload section,
    [(uploadLoading || uploadProgress === 100) && ...]: its text when it is
    rendered. *)
Definition progressBanner (st : State) : option jsstring :=
  if uploadLoading st || (uploadProgress st =? 100)%Z
  then Some (if (uploadProgress st =? 100)%Z
             then lit "Document uploaded successfully!"
             else lit "Uploading...")
  else None.

(** What [handleFileUpload] has done once the given progress events have
    been reported, the response still being awaited. *)
Definition awaiting_response (file : File) (events : list (N * option N))
  : list Effect :=
  [setUploadLoading true; setUploadProgress 0; setUploadResult None;
   http (ragApi.ingestDocument file None None (Some (lit "uploaded")))]
    ++ map setUploadProgress (flat_map onUploadProgress events).

(** The progress values a trace sets, those of its timers included. *)
Definition progress_values (trace : list Effect) : list Z :=
  flat_map (fun e => match e with setUploadProgress p => [p] | _ => [] end)
           (trace ++ callbacks trace).

End Timers.

Module App.

(** The two [useState] cells of [App]; [queryResult] starts as [null]. *)
Record AppState := {
  queryResult : value;
  loading : bool
}.

Definition initial : AppState := {| queryResult := VNull; loading := false |}.

Definition handleQueryResult (st : AppState) (result : value) : AppState :=
  {| queryResult := result; loading := loading st |}.

Definition handleLoading (st : AppState) (isLoading : bool) : AppState :=
  {| queryResult := queryResult st; loading := isLoading |}.

(** [App] passes the two handlers to [QueryInterface] as [onQueryResult]
    and [onLoading]. *)
Definition deliver (st : AppState) (e : QueryInterface.Effect) : AppState :=
  match e with
  | QueryInterface.onQueryResult result => handleQueryResult st result
  | QueryInterface.onLoading isLoading => handleLoading st isLoading
  | _ => st
  end.

Definition after (st : AppState) (trace : list QueryInterface.Effect) : AppState :=
  fold_left deliver trace st.

End App.

Module Conversation.

(** The user's bubble: [queryResult && (... {queryResult.question} ...)],
    the falsy [queryResult] itself when there is none. *)
Inductive Asked :=
| NoBubble (falsy : value)
| UserBubble (question : value).

(** The assistant's side: the spinner, the answer bubble of a response
    (its content, built from the response, is not unfolded here), the
    error bubble showing [queryResult.error], or [null]. *)
Inductive Reply :=
| Spinner
| AnswerBubble (response : value)
| ErrorBubble (error : value)
| NoReply.

(** The section [(loading || queryResult) && (...)]: the falsy value it
    evaluates to, or the conversation card. *)
Inductive Section :=
| Hidden (falsy : value)
| Card (asked : Asked) (reply : Reply).

Definition prop (o : value) (k : string) : value :=
  match get o k with Some v => v | None => VUndefined end.

Definition conversation (loading : bool) (queryResult : value) : Section :=
  if loading || truthy_value queryResult
  then Card (if truthy_value queryResult
             then UserBubble (prop queryResult "question")
             else NoBubble queryResult)
            (if loading then Spinner
             else if truthy_value queryResult
                     && strict_eq_str (prop queryResult "status") (lit "success")
             then AnswerBubble queryResult
             else if truthy_value queryResult
                     && strict_eq_str (prop queryResult "status") (lit "error")
             then ErrorBubble (prop queryResult "error")
             else NoReply)
  else Hidden queryResult.

(** What [App] shows of the conversation in a state. *)
Definition shown (st : App.AppState) : Section :=
  conversation (App.loading st) (App.queryResult st).

End Conversation.

Module InFlight.
Import QueryInterface.

(** What a handler has done while its request is awaited: the effects up
    to and including the first request. *)
Fixpoint before_reply (trace : list Effect) : list Effect :=
  match trace with
  | [] => []
  | e :: rest => if is_http e then [e] else e :: before_reply rest
  end.

End InFlight.

Module StatsState.
Import SystemStatsPanel.

(** The three [useState] cells of the statistics panel. *)
Record PanelState := {
  stats : value;
  loading : bool;
  error : option jsstring
}.

Definition initial : PanelState :=
  {| stats := VNull; loading := true; error := None |}.

Definition apply (st : PanelState) (e : Effect) : PanelState :=
  match e with
  | setLoading b => {| stats := stats st; loading := b; error := error st |}
  | setError m => {| stats := stats st; loading := loading st; error := m |}
  | setStats data => {| stats := data; loading := loading st; error := error st |}
  | _ => st
  end.

Definition after (st : PanelState) (trace : list Effect) : PanelState :=
  fold_left apply trace st.

Definition requests (trace : list Effect) : list Request :=
  flat_map (fun e => match e with http r => [r] | _ => [] end) trace.

(** What the panel renders in a state; a falsy [stats] is the [!stats] of
    the component. *)
Definition view (st : PanelState) : option View :=
  SystemStats (loading st) (error st)
    (if truthy_value (stats st) then Some (stats st) else None).

End StatsState.

(* ===================================================================== *)
(** ** components/ResultDisplay.tsx: the answer formatter *)
(* ===================================================================== *)

Module ResultDisplay.

(** [s.split(sep)] for a non-empty separator: the pieces between the
    occurrences of [sep], found from left to right without overlap.
    [skip] counts the units of a separator still to pass, [cur] holds the
    current piece, reversed. *)
Fixpoint split_from (sep : jsstring) (skip : nat) (cur s : jsstring)
  : list jsstring :=
  match s with
  | [] => [rev cur]
  | c :: r =>
      match skip with
      | S k => split_from sep k cur r
      | O =>
          if startsWith s sep
          then rev cur :: split_from sep (length sep - 1) [] r
          else split_from sep 0 (c :: cur) r
      end
  end.

Definition split (s sep : jsstring) : list jsstring := split_from sep 0 [] s.

Definition newline : jsstring := [10%N].

(** The class [[-\u2022*]]. *)
Definition isMarker (c : N) : bool := ((c =? 45) || (c =? 8226) || (c =? 42))%N.

(** The class [\d]. *)
Definition isDigit (c : N) : bool := ((48 <=? c) && (c <=? 57))%N.

Fixpoint dropDigits (s : jsstring) : jsstring :=
  match s with
  | c :: r => if isDigit c then dropDigits r else s
  | [] => []
  end.

(** What is left after a match of [/^\d+\./], when there is one. *)
Definition afterNumber (s : jsstring) : option jsstring :=
  match s with
  | c :: r =>
      if isDigit c
      then match dropDigits r with
           | d :: rest => if (d =? 46)%N then Some rest else None
           | [] => None
           end
      else None
  | [] => None
  end.

(** [item.replace(/^[-\u2022*]\s*/, '')] *)
Definition stripMarker (item : jsstring) : jsstring :=
  match item with
  | c :: r => if isMarker c then trimStart r else item
  | [] => []
  end.

(** [item.replace(/^\d+\.\s*/, '')] *)
Definition stripNumber (item : jsstring) : jsstring :=
  match afterNumber item with
  | Some rest => trimStart rest
  | None => item
  end.

(** [trimmed.split('\n').filter(item => item.trim())] *)
Definition lines (trimmed : jsstring) : list jsstring :=
  filter (fun item => truthy (trim item)) (split trimmed newline).

Inductive Block :=
| BulletList (items : list jsstring)
| NumberedList (items : list jsstring)
| Callout (text : jsstring)
| Paragraph (text : jsstring).

(** The element of one paragraph; [None] is [null]. *)
Definition block (paragraph : jsstring) : option Block :=
  let trimmed := trim paragraph in
  if negb (truthy trimmed) then None
  else if startsWith trimmed [8226%N] || startsWith trimmed (lit "-")
          || startsWith trimmed (lit "*")
  then Some (BulletList (map stripMarker (lines trimmed)))
  else if match afterNumber trimmed with Some _ => true | None => false end
  then Some (NumberedList (map stripNumber (lines trimmed)))
  else if includes trimmed (lit "Key:") || includes trimmed (lit "Note:")
          || includes trimmed (lit "Important:")
  then Some (Callout trimmed)
  else Some (Paragraph trimmed).

(** What [formatAnswer] returns: the empty string, or one element or
    [null] per paragraph. *)
Inductive Formatted :=
| NoText
| Blocks (elements : list (option Block)).

Definition formatAnswer (text : jsstring) : Formatted :=
  if negb (truthy text) then NoText
  else Blocks (map block (split text [10%N; 10%N])).

End ResultDisplay.

(* ===================================================================== *)
(** ** More sample inputs *)
(* ===================================================================== *)

Module MoreSamples.

Definition timeout_response : value :=
  VObj [("status", VStr (lit "timeout")); ("question", VStr (lit "visa?"));
        ("error", VStr (lit "Generation timed out"))].

Definition answering (data : value) (r : Request) : Outcome := Resolved data.

Definition uploading (events : list (N * option N)) (o : Outcome) (r : Request)
  : Upload :=
  {| progressEvents := events; outcome := o |}.

(** A file of exactly 100 megabytes. *)
Definition limit_pdf : File :=
  {| file_name := lit "regulations.pdf"; file_size := 104857600 |}.

(** A file one byte over the limit. *)
Definition over_pdf : File :=
  {| file_name := lit "regulations.pdf"; file_size := 104857601 |}.

Definition ingested : value :=
  VObj [("status", VStr (lit "success")); ("document_id", VStr (lit "doc-1"));
        ("chunks_created", VNum 12)].

Definition error_payload : value :=
  VObj [("status", VStr (lit "error")); ("error", VStr (lit "stats unavailable"))].

End MoreSamples.

(* ===================================================================== *)
(** ** Reading back what the handlers print and build *)
(* ===================================================================== *)

Module Digits.

(** The number a run of decimal digits denotes, most significant digit
    first; [None] when a unit is not a digit. *)
Fixpoint digits_from (acc : N) (ds : jsstring) : option N :=
  match ds with
  | [] => Some acc
  | c :: r =>
      if ResultDisplay.isDigit c then digits_from ((c - 48) + 10 * acc)%N r else None
  end.

Definition digits_value (ds : jsstring) : option N :=
  match ds with
  | [] => None
  | _ :: _ => digits_from 0 ds
  end.

End Digits.

Module Shapes.

(** A response with the given status and question that carries exactly
    the chosen ones of answer, sources, metadata and error, the metadata
    with or without a token usage. *)
Definition response_with (status question : jsstring)
    (with_answer with_sources with_metadata with_error with_usage : bool) : value :=
  VObj ([("status", VStr status); ("question", VStr question)]
          ++ (if with_answer then [("answer", VStr (lit "<p>a</p>"))] else [])
          ++ (if with_sources then [("sources", VArr [Samples.partner_visa])] else [])
          ++ (if with_metadata
              then [("metadata",
                     VObj [("retrieval_method", VStr (lit "semantic"));
                           ("documents_retrieved", VNum 1);
                           ("generation_metadata",
                            VObj ([("model", VStr (lit "gpt-oss-20b"));
                                   ("latency_seconds", VNum (3 # 2))]
                                    ++ (if with_usage
                                        then [("tokens_used", VNum 420)]
                                        else [])))])]
              else [])
          ++ (if with_error then [("error", VStr (lit "failed"))] else [])).

End Shapes.

(* ===================================================================== *)
(** * Properties *)
(* ===================================================================== *)

Module JsStringFacts.

Lemma startsWith_spec s p :
  startsWith s p = true <-> exists post, s = p ++ post.
Proof.
  revert s; induction p as [|a p IH]; intros [|b s]; cbn [startsWith app].
  - split; [now exists [] | reflexivity].
  - split; [now exists (b :: s) | reflexivity].
  - split; [discriminate | intros [post H]; discriminate].
  - rewrite andb_true_iff, N.eqb_eq, IH. split.
    + intros [-> [post ->]]. now exists post.
    + intros [post H]. injection H as -> ->. split; [reflexivity | now exists post].
Qed.

Lemma includes_spec s p : includes s p = true <-> Contains s p.
Proof.
  unfold Contains. induction s as [|c s IH].
  - cbn [includes]. rewrite orb_false_r, startsWith_spec. split.
    + intros [post H]. now exists [], post.
    + intros [pre [post H]]. destruct pre; [now exists post | discriminate].
  - cbn [includes]. rewrite orb_true_iff, startsWith_spec, IH. split.
    + intros [[post H] | [pre [post H]]].
      * now exists [], post.
      * exists (c :: pre), post. now rewrite H.
    + intros [pre [post H]]. destruct pre as [|c' pre].
      * left. now exists post.
      * right. injection H as -> ->. now exists pre, post.
Qed.

Lemma includes_false s p : includes s p = false <-> ~ Contains s p.
Proof.
  rewrite <- includes_spec. destruct (includes s p); split; congruence.
Qed.

Lemma Contains_nonempty s p : Contains s p -> p <> [] -> s <> [].
Proof.
  intros [pre [post ->]] Hp H. apply app_eq_nil in H as [_ H].
  apply app_eq_nil in H as [H _]. contradiction.
Qed.

Lemma trim_nil : trim [] = [].
Proof. reflexivity. Qed.

End JsStringFacts.
Import JsStringFacts.

Module JsFacts.

Lemma has_type_object fields v :
  has_type (TObject fields) v = true ->
  exists props, v = VObj props /\ forallb (field_ok props) fields = true.
Proof.
  destruct v as [| | | | | |props]; cbn [has_type]; try discriminate.
  intros H. exists props. split; [reflexivity|].
  induction fields as [|[name [optional ft]] rest IH]; [reflexivity|].
  cbn [forallb]. apply andb_true_iff in H as [H1 H2].
  apply andb_true_iff. split; [exact H1 | exact (IH H2)].
Qed.

Lemma get_lookup props k x : lookup k props = Some x -> get (VObj props) k = Some x.
Proof. intros H. cbn [get]. now rewrite H. Qed.

Lemma req_field props name t :
  field_ok props (req name t) = true ->
  exists x, get (VObj props) name = Some x /\ has_type t x = true.
Proof.
  unfold field_ok, req. cbn [fst snd get].
  destruct (lookup name props) as [x|]; [|discriminate].
  intros H. exists x. split; [reflexivity|].
  destruct x; exact H.
Qed.

Lemma opt_field props name t :
  field_ok props (opt name t) = true ->
  absent_or (fun x => has_type t x = true) (VObj props) name.
Proof.
  unfold field_ok, opt, absent_or. cbn [fst snd get].
  destruct (lookup name props) as [x|]; [|now left].
  destruct x; intros H; try (right; eexists; split; [reflexivity | exact H]).
  now left.
Qed.

Lemma has_type_number x : has_type TNumber x = true -> exists q, x = VNum q.
Proof. destruct x; try discriminate. intros _. now eexists. Qed.

Lemma has_type_string x : has_type TString x = true -> exists s, x = VStr s.
Proof. destruct x; try discriminate. intros _. now eexists. Qed.

Lemma has_type_array t x :
  has_type (TArray t) x = true ->
  exists items, x = VArr items /\ Forall (fun i => has_type t i = true) items.
Proof.
  destruct x as [| | | | |items|]; try discriminate. intros H.
  change (forallb (has_type t) items = true) in H.
  exists items. split; [reflexivity|].
  apply Forall_forall. now apply forallb_forall.
Qed.

Lemma req_number props name :
  field_ok props (req name TNumber) = true ->
  exists q, get (VObj props) name = Some (VNum q).
Proof.
  intros H. apply req_field in H as [x [G T]].
  apply has_type_number in T as [q ->]. now exists q.
Qed.

Lemma req_string props name :
  field_ok props (req name TString) = true ->
  exists s, get (VObj props) name = Some (VStr s).
Proof.
  intros H. apply req_field in H as [x [G T]].
  apply has_type_string in T as [q ->]. now exists q.
Qed.

Lemma req_object props name fields :
  field_ok props (req name (TObject fields)) = true ->
  exists ps, get (VObj props) name = Some (VObj ps)
             /\ forallb (field_ok ps) fields = true.
Proof.
  intros H. apply req_field in H as [x [G T]].
  apply has_type_object in T as [ps [-> F]]. now exists ps.
Qed.

Lemma absent_or_impl (P Q : value -> Prop) o k :
  (forall x, P x -> Q x) -> absent_or P o k -> absent_or Q o k.
Proof.
  intros HPQ [H | [x [H1 H2]]]; [now left | right].
  exists x. split; [assumption | now apply HPQ].
Qed.

End JsFacts.
Import JsFacts.

Module DigitFacts.
Import Digits.

Lemma digits_from_uint (d : Decimal.uint) : forall a,
  digits_from (DecimalPos.Unsigned.of_lu a) (lit (NilEmpty.string_of_uint d))
  = Some (DecimalPos.Unsigned.of_lu (Decimal.revapp d a)).
Proof.
  induction d as [|d IH|d IH|d IH|d IH|d IH|d IH|d IH|d IH|d IH|d IH]; intros a;
    [reflexivity | ..];
    cbn [NilEmpty.string_of_uint Decimal.revapp];
    match goal with
    | |- digits_from _ (lit (String ?c ?s)) = _ =>
        change (lit (String c s)) with (N_of_ascii c :: lit s)
    end;
    cbn [digits_from]; rewrite <- IH; reflexivity.
Qed.

Lemma to_uint_nonnil n : N.to_uint n <> Decimal.Nil.
Proof.
  destruct n as [|p]; [discriminate|]. apply DecimalPos.Unsigned.to_uint_nonnil.
Qed.

(** The digits [decimal] prints denote the number printed. *)
Lemma decimal_value n : digits_value (QueryInterface.decimal n) = Some n.
Proof.
  unfold QueryInterface.decimal.
  pose proof (to_uint_nonnil n) as NN.
  pose proof (digits_from_uint (N.to_uint n) Decimal.Nil) as H.
  change (DecimalPos.Unsigned.of_lu Decimal.Nil) with 0%N in H.
  fold (Decimal.rev (N.to_uint n)) in H.
  rewrite <- DecimalPos.Unsigned.of_uint_alt in H.
  change (Pos.of_uint (N.to_uint n)) with (N.of_uint (N.to_uint n)) in H.
  rewrite DecimalN.Unsigned.of_to in H.
  destruct (N.to_uint n) eqn:E; [contradiction | ..]; exact H.
Qed.

Lemma to_uint_no_leading_zero n d : N.to_uint n = Decimal.D0 d -> n = 0%N.
Proof.
  intros E.
  assert (U : Decimal.unorm (N.to_uint n) = N.to_uint n).
  { rewrite <- DecimalN.Unsigned.to_of, DecimalN.Unsigned.of_to. reflexivity. }
  rewrite E, DecimalFacts.unorm_D0 in U.
  destruct d eqn:D; [rewrite <- (DecimalN.Unsigned.of_to n), E; reflexivity | ..];
    (assert (L : (Decimal.nb_digits (Decimal.unorm d) <= Decimal.nb_digits d)%nat)
       by (apply DecimalFacts.nb_digits_unorm; subst d; discriminate);
     subst d; rewrite U in L; cbn in L; lia).
Qed.

(** A number other than 0 is printed without a leading zero. *)
Lemma decimal_head n : n <> 0%N -> hd 48%N (QueryInterface.decimal n) <> 48%N.
Proof.
  intros H. unfold QueryInterface.decimal.
  destruct (N.to_uint n) eqn:E; cbn; try discriminate.
  - now apply to_uint_nonnil in E.
  - elim H. now apply to_uint_no_leading_zero in E.
Qed.

Lemma decimal_digit n : (n < 10)%N -> exists d, QueryInterface.decimal n = [d].
Proof.
  intros H.
  destruct n as [|p]; [eexists; reflexivity|].
  do 4 (destruct p as [p|p|]; try (eexists; reflexivity); try lia).
Qed.

End DigitFacts.

Module QueryInterfaceFacts.
Import QueryInterface.

Lemma html_condition_spec text :
  includes text (lit "<") && includes text (lit ">")
    && (includes text (lit "<p>") || includes text (lit "<strong>")
        || includes text (lit "<em>") || includes text (lit "<br>")) = true
  <-> HtmlLike text.
Proof.
  unfold HtmlLike.
  rewrite !andb_true_iff, !orb_true_iff, !includes_spec. tauto.
Qed.

Lemma HtmlLike_nonempty text : HtmlLike text -> text <> [].
Proof.
  intros [H _]. apply (Contains_nonempty _ _ H). discriminate.
Qed.

(** C10. [formatAnswer] hands a string to [dangerouslySetInnerHTML],
    unchanged, exactly when it contains '<' and '>' and one of '<p>',
    '<strong>', '<em>', '<br>'; every other string is shown as text. *)
Theorem formatAnswer_html_or_text (text : jsstring) :
  (HtmlLike text /\ formatAnswer text = InnerHtmlDiv text)
  \/ (~ HtmlLike text /\ plain_text (formatAnswer text) = Some text).
Proof.
  unfold formatAnswer.
  destruct text as [|c text].
  - right. split; [|reflexivity].
    intros H. now apply HtmlLike_nonempty in H.
  - cbn [truthy negb].
    destruct (includes (c :: text) (lit "<") && includes (c :: text) (lit ">")
              && (includes (c :: text) (lit "<p>") || includes (c :: text) (lit "<strong>")
                  || includes (c :: text) (lit "<em>") || includes (c :: text) (lit "<br>")))
      eqn:E.
    + left. split; [now apply html_condition_spec | reflexivity].
    + right. split; [|reflexivity].
      intros H. apply html_condition_spec in H. congruence.
Qed.

Example formatAnswer_paragraph :
  formatAnswer (lit "<p>A partner visa</p>") = InnerHtmlDiv (lit "<p>A partner visa</p>").
Proof. reflexivity. Qed.

Example formatAnswer_script_passes_through :
  formatAnswer (lit "<script>alert(1)</script><br>")
  = InnerHtmlDiv (lit "<script>alert(1)</script><br>").
Proof. reflexivity. Qed.

Example formatAnswer_brackets_without_tag :
  formatAnswer (lit "if a < b and b > c") = TextDiv (lit "if a < b and b > c").
Proof. reflexivity. Qed.

Example formatAnswer_other_tag :
  formatAnswer (lit "<div>x</div>") = TextDiv (lit "<div>x</div>").
Proof. reflexivity. Qed.

Example formatAnswer_empty : formatAnswer [] = EmptyString.
Proof. reflexivity. Qed.

Lemma requests_app a b : requests (a ++ b) = requests a ++ requests b.
Proof. unfold requests. apply flat_map_app. Qed.

(** C8, as stated, fails on a question made of white space: it is not
    empty, the Enter key still reaches [handleQuery], and nothing is sent. *)
Lemma handleQuery_blank_question_sends_nothing :
  question (Samples.idle (lit " ")) <> []
  /\ requests (handleQuery (Samples.idle (lit " ")) Samples.offline) = []
  /\ requests (handleKeyPress (lit "Enter") false (Samples.idle (lit " ")) Samples.offline) = [].
Proof.
  split; [discriminate | split; reflexivity].
Qed.

(** C8, amended. For every question that is not empty once trimmed,
    [handleQuery] sends one request, to /query, whose body is the object
    with the single property [question], the trimmed text; [top_k] and
    [use_reranking] are not set. *)
Theorem handleQuery_sends_only_trimmed_question
    (st : State) (server : Request -> Outcome) :
  trim (question st) <> [] ->
  exists body,
    requests (handleQuery st server) = [PostJson "/query" body]
    /\ body = VObj [("question", VStr (trim (question st)))]
    /\ has_type Types.QueryRequest body = true
    /\ get body "top_k" = Some VUndefined
    /\ get body "use_reranking" = Some VUndefined.
Proof.
  intros H. exists (VObj [("question", VStr (trim (question st)))]).
  unfold handleQuery.
  destruct (trim (question st)) as [|c t] eqn:E; [contradiction|].
  cbn [truthy negb]. rewrite !requests_app.
  repeat split; try reflexivity.
  cbn [requests flat_map app ragApi.query].
  destruct (server _); reflexivity.
Qed.

Lemma handleQuery_sends_only_trimmed_question_witness :
  trim (question (Samples.idle (lit "  What is a partner visa? "))) <> []
  /\ exists body,
       requests (handleQuery (Samples.idle (lit "  What is a partner visa? ")) Samples.offline)
       = [PostJson "/query" body]
       /\ body = VObj [("question", VStr (trim (lit "  What is a partner visa? ")))]
       /\ has_type Types.QueryRequest body = true
       /\ get body "top_k" = Some VUndefined
       /\ get body "use_reranking" = Some VUndefined.
Proof.
  split.
  - vm_compute. discriminate.
  - apply (handleQuery_sends_only_trimmed_question
             (Samples.idle (lit "  What is a partner visa? ")) Samples.offline).
    vm_compute. discriminate.
Defined.

(** C9. A selected file of more than 100 megabytes is refused in the
    browser. The size error is set to a message that the page shows: the
    text 'File too large. Maximum size is 100MB. Selected file: ', the size
    in megabytes rounded to the nearest tenth (the upper one on a tie) and
    printed without leading zero, and 'MB'. The selected file is cleared
    and no request is sent. The HTTP client is configured with the same
    bound of 100 megabytes on a request body: a selected file is sent
    exactly when its size is within the client's bound. *)
Theorem handleFileSelect_rejects_large_file
    (st : State) (file : File) (server : Request -> Upload) :
  (100 * 1024 * 1024 < file_size file)%N ->
  let trace := handleFileSelect st (Some file) server in
  trace = [setFileSizeError (Some (fileTooLarge (file_size file))); setUploadFile None]
  /\ fileSizeError (run st trace) = Some (fileTooLarge (file_size file))
  /\ uploadFile (run st trace) = None
  /\ requests trace = []
  /\ (forall env, maxBodyLength (api env) = (100 * 1024 * 1024)%N)
  /\ (exists message whole tenth ds d,
        fileSizeError (run st trace) = Some message
        /\ truthy message = true
        /\ message = lit "File too large. Maximum size is 100MB. Selected file: "
                       ++ ds ++ lit "." ++ [d] ++ lit "MB"
        /\ Digits.digits_value ds = Some whole
        /\ hd 48%N ds <> 48%N
        /\ Digits.digits_value [d] = Some tenth
        /\ (tenth < 10)%N
        /\ (2097152 * (10 * whole + tenth) <= 20 * file_size file + 1048576
            < 2097152 * (10 * whole + tenth + 1))%N)
  /\ (forall env other,
        requests (handleFileSelect st (Some other) server) = []
        <-> (maxBodyLength (api env) < file_size other)%N).
Proof.
  intros H. cbv zeta.
  assert (T : handleFileSelect st (Some file) server
              = [setFileSizeError (Some (fileTooLarge (file_size file)));
                 setUploadFile None]).
  { unfold handleFileSelect.
    replace (MAX_FILE_SIZE <? file_size file)%N with true
      by (symmetry; apply N.ltb_lt; exact H).
    reflexivity. }
  rewrite T.
  split; [reflexivity|]. split; [reflexivity|]. split; [reflexivity|].
  split; [reflexivity|]. split; [reflexivity|]. split.
  - set (size := file_size file) in *.
    set (tenths := ((20 * size + 1048576) / 2097152)%N).
    assert (Hq : (2097152 * tenths <= 20 * size + 1048576)%N)
      by (apply N.Div0.mul_div_le).
    assert (Hr : (20 * size + 1048576 < 2097152 * N.succ tenths)%N)
      by (apply N.mul_succ_div_gt; discriminate).
    assert (Hm : (tenths = 10 * (tenths / 10) + tenths mod 10)%N)
      by (apply N.div_mod; discriminate).
    assert (Hf : (tenths mod 10 < 10)%N) by (apply N.mod_lt; discriminate).
    assert (Hw : (tenths / 10 <> 0)%N) by lia.
    destruct (DigitFacts.decimal_digit _ Hf) as [d Hd].
    exists (fileTooLarge size), (tenths / 10)%N, (tenths mod 10)%N,
           (decimal (tenths / 10)), d.
    split; [reflexivity|]. split; [reflexivity|]. split.
    { unfold fileTooLarge, megabytes_toFixed1. fold tenths. cbv zeta.
      rewrite Hd, <- !app_assoc. reflexivity. }
    split; [apply DigitFacts.decimal_value|].
    split; [now apply DigitFacts.decimal_head|].
    split; [rewrite <- Hd; apply DigitFacts.decimal_value|].
    split; [exact Hf|]. lia.
  - intros env other. cbn [maxBodyLength api]. unfold handleFileSelect.
    destruct (N.ltb_spec MAX_FILE_SIZE (file_size other)) as [L | L].
    + split; [intros _; exact L | reflexivity].
    + split; [|unfold MAX_FILE_SIZE in L; lia].
      unfold handleFileUpload. cbn [requests flat_map app]. discriminate.
Qed.

Lemma handleFileSelect_rejects_large_file_witness :
  (100 * 1024 * 1024 < file_size Samples.act_pdf)%N
  /\ let trace := handleFileSelect (Samples.idle []) (Some Samples.act_pdf)
                    Samples.offline_upload in
     trace = [setFileSizeError (Some (fileTooLarge (file_size Samples.act_pdf)));
              setUploadFile None]
     /\ fileSizeError (run (Samples.idle []) trace)
        = Some (fileTooLarge (file_size Samples.act_pdf))
     /\ uploadFile (run (Samples.idle []) trace) = None
     /\ requests trace = []
     /\ (forall env, maxBodyLength (api env) = (100 * 1024 * 1024)%N)
     /\ (exists message whole tenth ds d,
           fileSizeError (run (Samples.idle []) trace) = Some message
           /\ truthy message = true
           /\ message = lit "File too large. Maximum size is 100MB. Selected file: "
                          ++ ds ++ lit "." ++ [d] ++ lit "MB"
           /\ Digits.digits_value ds = Some whole
           /\ hd 48%N ds <> 48%N
           /\ Digits.digits_value [d] = Some tenth
           /\ (tenth < 10)%N
           /\ (2097152 * (10 * whole + tenth) <= 20 * file_size Samples.act_pdf + 1048576
               < 2097152 * (10 * whole + tenth + 1))%N)
     /\ (forall env other,
           requests (handleFileSelect (Samples.idle []) (Some other) Samples.offline_upload)
           = []
           <-> (maxBodyLength (api env) < file_size other)%N).
Proof.
  split.
  - reflexivity.
  - apply (handleFileSelect_rejects_large_file
             (Samples.idle []) Samples.act_pdf Samples.offline_upload).
    reflexivity.
Defined.

Example fileTooLarge_act_pdf :
  fileTooLarge (file_size Samples.act_pdf)
  = lit "File too large. Maximum size is 100MB. Selected file: 150.0MB".
Proof. reflexivity. Qed.

End QueryInterfaceFacts.

Module TypesFacts.
Import Types.

Ltac fields H :=
  cbn [forallb] in H;
  repeat (let F := fresh "F" in apply andb_true_iff in H as [F H]); clear H.

(** C6, as stated, fails on two values of type [QueryResponse]: one with
    neither an answer nor an error, and an answered one whose generation
    metadata has no token usage. *)
Lemma QueryResponse_without_answer_or_error :
  has_type QueryResponse Samples.bare_response = true
  /\ answer_or_error Samples.bare_response = false
  /\ has_type QueryResponse Samples.response_without_usage = true
  /\ answer_or_error Samples.response_without_usage = false.
Proof. repeat split. Qed.

(** Every choice of status, question and of which of the optional members
    are there gives a value of type [QueryResponse] with exactly those
    members. *)
Lemma response_with_shape (status question : jsstring) (a s m e u : bool) :
  has_type QueryResponse (Shapes.response_with status question a s m e u) = true
  /\ get (Shapes.response_with status question a s m e u) "status" = Some (VStr status)
  /\ get (Shapes.response_with status question a s m e u) "question"
     = Some (VStr question)
  /\ present (Shapes.response_with status question a s m e u) "answer" = a
  /\ present (Shapes.response_with status question a s m e u) "sources" = s
  /\ present (Shapes.response_with status question a s m e u) "metadata" = m
  /\ present (Shapes.response_with status question a s m e u) "error" = e
  /\ (m = true ->
      exists g,
        get_path (Shapes.response_with status question a s m e u)
                 ["metadata"; "generation_metadata"] = Some g
        /\ present g "tokens_used" = u).
Proof.
  destruct a, s, m, e, u;
    (split; [reflexivity|]); (split; [reflexivity|]); (split; [reflexivity|]);
    (split; [reflexivity|]); (split; [reflexivity|]); (split; [reflexivity|]);
    (split; [reflexivity|]);
    intros M; try discriminate M;
    eexists; split; reflexivity.
Qed.

(** C6, amended. Every [QueryResponse] value carries a string status and
    the echoed question. The answer, the sources, the metadata and the
    error description are each optional, whatever the status and whatever
    the others: an answer, when there, is a string; sources, when there,
    each carry a numeric similarity; metadata, when there, carries the
    generation metadata with a model identifier and a latency, and a token
    usage that is itself optional; an error, when there, is a string. The
    optional members are independent of the status and of each other: with
    the status and the question of any response, every choice of which of
    answer, sources, metadata and error are there, and of whether the
    metadata has a token usage, is again a [QueryResponse] value. *)
Theorem QueryResponse_fields (r : value) :
  has_type QueryResponse r = true ->
  (exists s, get r "status" = Some (VStr s))
  /\ (exists q, get r "question" = Some (VStr q))
  /\ absent_or (fun x => exists a, x = VStr a) r "answer"
  /\ absent_or (fun x => exists srcs, x = VArr srcs
                   /\ Forall (fun src => exists sim, get src "similarity" = Some (VNum sim)) srcs)
               r "sources"
  /\ absent_or (fun m => exists g model latency,
                   get m "generation_metadata" = Some g
                   /\ get g "model" = Some (VStr model)
                   /\ get g "latency_seconds" = Some (VNum latency)
                   /\ absent_or (fun x => exists n, x = VNum n) g "tokens_used")
               r "metadata"
  /\ absent_or (fun x => exists e, x = VStr e) r "error"
  /\ (forall with_answer with_sources with_metadata with_error with_usage : bool,
        exists r',
          has_type QueryResponse r' = true
          /\ get r' "status" = get r "status"
          /\ get r' "question" = get r "question"
          /\ present r' "answer" = with_answer
          /\ present r' "sources" = with_sources
          /\ present r' "metadata" = with_metadata
          /\ present r' "error" = with_error
          /\ (with_metadata = true ->
              exists g,
                get_path r' ["metadata"; "generation_metadata"] = Some g
                /\ present g "tokens_used" = with_usage)).
Proof.
  intros H. apply has_type_object in H as [props [-> H]]. fields H.
  split; [now apply req_string|].
  split; [now apply req_string|].
  split; [eapply absent_or_impl; [|apply opt_field; eassumption];
          intros x; apply has_type_string|].
  split.
  { eapply absent_or_impl; [|apply opt_field; eassumption].
    intros x Hx. apply has_type_array in Hx as [srcs [-> Hs]].
    exists srcs. split; [reflexivity|].
    eapply Forall_impl; [|exact Hs].
    intros src Hsrc. apply has_type_object in Hsrc as [ps [-> Hp]]. fields Hp.
    now apply req_number. }
  split.
  { eapply absent_or_impl; [|apply opt_field; eassumption].
    intros m Hm. apply has_type_object in Hm as [ps [-> Hp]]. fields Hp.
    match goal with
    | G : field_ok ps (req "generation_metadata" _) = true |- _ =>
        apply req_object in G as [gs [G1 G2]]
    end.
    fields G2.
    match goal with
    | A : field_ok gs (req "model" _) = true,
      B : field_ok gs (req "latency_seconds" _) = true,
      C : field_ok gs (opt "tokens_used" _) = true |- _ =>
        apply req_string in A as [model A];
        apply req_number in B as [latency B];
        apply opt_field in C
    end.
    exists (VObj gs), model, latency. repeat split; try assumption.
    match goal with
    | C : absent_or _ _ "tokens_used" |- _ =>
        eapply absent_or_impl; [|exact C]
    end.
    intros x; apply has_type_number. }
  split.
  { eapply absent_or_impl; [|apply opt_field; eassumption].
    intros x; apply has_type_string. }
  intros a s m e u.
  match goal with
  | A : field_ok props (req "status" _) = true,
    B : field_ok props (req "question" _) = true |- _ =>
      apply req_string in A as [status A];
      apply req_string in B as [question B];
      rewrite A, B
  end.
  exists (Shapes.response_with status question a s m e u).
  apply response_with_shape.
Qed.

Lemma QueryResponse_fields_witness :
  has_type QueryResponse Samples.full_response = true
  /\ (exists s, get Samples.full_response "status" = Some (VStr s))
  /\ (exists r',
        has_type QueryResponse r' = true
        /\ get r' "status" = get Samples.full_response "status"
        /\ get r' "question" = get Samples.full_response "question"
        /\ present r' "answer" = false
        /\ present r' "sources" = true
        /\ present r' "metadata" = true
        /\ present r' "error" = true
        /\ (true = true ->
            exists g,
              get_path r' ["metadata"; "generation_metadata"] = Some g
              /\ present g "tokens_used" = false)).
Proof.
  destruct (QueryResponse_fields Samples.full_response eq_refl)
    as (S & _ & _ & _ & _ & _ & I).
  split; [reflexivity|]. split; [exact S|].
  exact (I false true true true false).
Defined.

(** X18. The one response the frontend builds itself, when the request
    fails, conforms to [QueryResponse]: status 'error', the question as
    typed, an error description, and no answer, sources or metadata. *)
Lemma handleQuery_failure_response (st : QueryInterface.State) (server : Request -> Outcome) :
  trim (QueryInterface.question st) <> [] ->
  server (ragApi.query (VObj [("question", VStr (trim (QueryInterface.question st)))])) = Rejected ->
  exists r,
    In (QueryInterface.onQueryResult r) (QueryInterface.handleQuery st server)
    /\ has_type QueryResponse r = true
    /\ get r "status" = Some (VStr (lit "error"))
    /\ get r "question" = Some (VStr (QueryInterface.question st))
    /\ errored r = true
    /\ present r "metadata" = false.
Proof.
  intros H R. unfold QueryInterface.handleQuery.
  destruct (trim (QueryInterface.question st)) as [|c t] eqn:E; [contradiction|].
  cbn [truthy negb]. rewrite R.
  eexists. split.
  - cbn [app]. right. right. right. left. reflexivity.
  - repeat split.
Qed.

(** C7. A value of type [SystemStats] exposes, as numbers, the document
    count, the embedding dimensionality, the configured chunk size and
    overlap, the default top-k and the maximum generation tokens; the
    statistics panel renders such a value and shows the document count, the
    dimensionality, the maximum tokens, the top-k and the chunk size. *)
Theorem SystemStats_exposes (stats : value) :
  has_type SystemStats stats = true ->
  exists total_documents embedding_dimension chunk_size chunk_overlap top_k max_tokens,
    get_path stats ["vector_store"; "total_documents"] = Some (VNum total_documents)
    /\ get_path stats ["retrieval"; "embedding_dimension"] = Some (VNum embedding_dimension)
    /\ get_path stats ["pipeline_config"; "chunk_size"] = Some (VNum chunk_size)
    /\ get_path stats ["pipeline_config"; "chunk_overlap"] = Some (VNum chunk_overlap)
    /\ get_path stats ["pipeline_config"; "top_k_results"] = Some (VNum top_k)
    /\ get_path stats ["pipeline_config"; "max_tokens"] = Some (VNum max_tokens)
    /\ exists view,
         SystemStatsPanel.SystemStats false None (Some stats) = Some view
         /\ incl [VNum total_documents; VNum embedding_dimension; VNum max_tokens;
                  VNum top_k; VNum chunk_size]
                 (SystemStatsPanel.shown view).
Proof.
  intros H. apply has_type_object in H as [props [-> H]]. fields H.
  match goal with
  | A : field_ok props (req "vector_store" _) = true,
    B : field_ok props (req "retrieval" _) = true,
    C : field_ok props (req "pipeline_config" _) = true |- _ =>
      apply req_object in A as [vs [A1 A2]];
      apply req_object in B as [rs [B1 B2]];
      apply req_object in C as [pc [C1 C2]]
  end.
  fields A2. fields B2. fields C2.
  repeat match goal with
         | G : field_ok _ (req _ TNumber) = true |- _ => apply req_number in G as [? G]
         | G : field_ok _ (req _ TString) = true |- _ => apply req_string in G as [? G]
         end.
  do 6 eexists.
  unfold SystemStatsPanel.SystemStats, SystemStatsPanel.bind.
  cbn [get_path]. rewrite A1, B1, C1.
  repeat match goal with
         | G : get ?o ?k = Some _ |- context [get ?o ?k] => rewrite G
         end.
  repeat split.
  eexists. split; [reflexivity|].
  cbn [SystemStatsPanel.shown SystemStatsPanel.figure SystemStatsPanel.detail
       flat_map app].
  intros v Hv. cbn [In] in *. intuition auto.
Qed.

Lemma SystemStats_exposes_witness :
  has_type SystemStats Samples.stats = true
  /\ exists total_documents embedding_dimension chunk_size chunk_overlap top_k max_tokens,
    get_path Samples.stats ["vector_store"; "total_documents"] = Some (VNum total_documents)
    /\ get_path Samples.stats ["retrieval"; "embedding_dimension"] = Some (VNum embedding_dimension)
    /\ get_path Samples.stats ["pipeline_config"; "chunk_size"] = Some (VNum chunk_size)
    /\ get_path Samples.stats ["pipeline_config"; "chunk_overlap"] = Some (VNum chunk_overlap)
    /\ get_path Samples.stats ["pipeline_config"; "top_k_results"] = Some (VNum top_k)
    /\ get_path Samples.stats ["pipeline_config"; "max_tokens"] = Some (VNum max_tokens)
    /\ exists view,
         SystemStatsPanel.SystemStats false None (Some Samples.stats) = Some view
         /\ incl [VNum total_documents; VNum embedding_dimension; VNum max_tokens;
                  VNum top_k; VNum chunk_size]
                 (SystemStatsPanel.shown view).
Proof.
  split.
  - reflexivity.
  - apply (SystemStats_exposes Samples.stats). reflexivity.
Defined.

Example panel_shows_no_overlap :
  exists view,
    SystemStatsPanel.SystemStats false None (Some Samples.stats) = Some view
    /\ SystemStatsPanel.shown view
       = [VNum 42; VStr (lit "immigration_docs"); VNum 384;
          VStr (lit "all-MiniLM-L6-v2"); VNum 1024; VNum 5; VNum 512].
Proof. eexists. split; reflexivity. Qed.

End TypesFacts.

Module ChunkerFacts.
Import Core.

Section Windows.

Variable tk : Tokenizer.
Variables size ov : nat.
Hypothesis valid : ov < size.
Variable tokens : list (token tk).

Let step := size - ov.

Lemma slide_more fuel start :
  0 < fuel -> start + size < length tokens ->
  slide tk fuel size step start tokens
  = firstn size (skipn start tokens)
      :: slide tk (fuel - 1) size step (start + step) tokens.
Proof.
  clear valid. intros Hf Hs. destruct fuel as [|fuel]; [lia|].
  cbn [slide]. replace (S fuel - 1) with fuel by lia.
  destruct (Nat.leb_spec (length tokens) start); [lia|].
  destruct (Nat.leb_spec (length tokens) (start + size)); [lia|].
  reflexivity.
Qed.

Lemma slide_last fuel start :
  0 < fuel -> start < length tokens -> length tokens <= start + size ->
  slide tk fuel size step start tokens = [firstn size (skipn start tokens)].
Proof.
  clear valid. intros Hf Hs He. destruct fuel as [|fuel]; [lia|].
  cbn [slide].
  destruct (Nat.leb_spec (length tokens) start); [lia|].
  destruct (Nat.leb_spec (length tokens) (start + size)); [|lia].
  reflexivity.
Qed.

(** From a window that starts [ov] tokens before the uncovered part, the
    windows, each without its first [ov] tokens, spell out the rest. *)
Lemma slide_rest fuel : forall start,
  start + ov < length tokens -> length tokens - start <= fuel ->
  concat (map (skipn ov) (slide tk fuel size step start tokens))
  = skipn (start + ov) tokens.
Proof.
  induction fuel as [|fuel IH]; intros start Hs Hf; [lia|].
  destruct (Nat.le_gt_cases (length tokens) (start + size)) as [He|He].
  - rewrite slide_last by lia. cbn [map concat]. rewrite app_nil_r.
    rewrite skipn_firstn_comm, skipn_skipn, (Nat.add_comm ov start).
    apply firstn_all2. rewrite length_skipn. lia.
  - rewrite slide_more by lia. cbn [map concat].
    replace (S fuel - 1) with fuel by lia.
    rewrite IH by (unfold step; lia).
    rewrite skipn_firstn_comm, skipn_skipn, (Nat.add_comm ov start).
    replace (start + step + ov) with (step + (start + ov)) by (unfold step; lia).
    rewrite <- (skipn_skipn step (start + ov)).
    apply firstn_skipn.
Qed.

(** Every window holds at least one token and at most [size]. *)
Lemma slide_bounded fuel : forall start,
  Forall (fun w => 0 < length w <= size) (slide tk fuel size step start tokens).
Proof.
  induction fuel as [|fuel IH]; intros start; cbn [slide]; [constructor|].
  destruct (Nat.leb_spec (length tokens) start); [constructor|].
  constructor.
  - rewrite length_firstn, length_skipn. lia.
  - destruct (Nat.leb_spec (length tokens) (start + size)); [constructor | apply IH].
Qed.

Lemma windows_cover :
  match slide tk (length tokens) size step 0 tokens with
  | [] => tokens = []
  | w :: ws => w ++ concat (map (skipn ov) ws) = tokens
  end.
Proof.
  destruct tokens as [|t ts] eqn:E; [reflexivity|]. rewrite <- E.
  assert (0 < length tokens) by (rewrite E; cbn; lia).
  destruct (Nat.le_gt_cases (length tokens) size) as [He|He].
  - rewrite slide_last by lia. cbn [map concat skipn].
    rewrite app_nil_r. now apply firstn_all2.
  - rewrite slide_more by lia. cbn [skipn].
    rewrite slide_rest by (unfold step; lia).
    replace (0 + step + ov) with size by (unfold step; lia).
    apply firstn_skipn.
Qed.

End Windows.

Lemma span_number tk doc ws : forall i, map span (number tk doc i ws) = ws.
Proof.
  induction ws as [|w ws IH]; intros i; [reflexivity|].
  cbn [number map span]. now rewrite IH.
Qed.

Lemma deoverlap_number tk cfg doc i ws :
  deoverlap tk cfg (number tk doc i ws)
  = match ws with
    | [] => []
    | w :: rest => w ++ concat (map (skipn (overlap cfg)) rest)
    end.
Proof.
  destruct ws as [|w rest]; [reflexivity|].
  cbn [number deoverlap span]. f_equal. f_equal.
  rewrite <- (span_number tk doc rest (S i)) at 2.
  now rewrite map_map.
Qed.

(** C1. With chunk size 512 and overlap 50, a document of 1200 tokens
    gives exactly three chunks, the windows at 0, 462 and 924: two of 512
    tokens and a last, non-empty one of at most 512, the second chunk
    starting with the last 50 tokens of the first. *)
Theorem chunker_scenario_A (tk : Tokenizer) (doc : Document) :
  length (tokenize tk (raw_text doc)) = 1200 ->
  exists c1 c2 c3,
    chunker tk default_chunking doc = Ok [c1; c2; c3]
    /\ length (span c1) = 512
    /\ length (span c2) = 512
    /\ 0 < length (span c3) <= 512
    /\ firstn 50 (span c2) = skipn (512 - 50) (span c1)
    /\ span c1 = firstn 512 (tokenize tk (raw_text doc))
    /\ span c2 = firstn 512 (skipn (512 - 50) (tokenize tk (raw_text doc)))
    /\ span c3 = firstn 512 (skipn (2 * (512 - 50)) (tokenize tk (raw_text doc))).
Proof.
  intros H. unfold chunker, windows.
  change (chunk_size default_chunking) with 512.
  change (overlap default_chunking) with 50.
  set (tokens := tokenize tk (raw_text doc)) in *.
  replace (512 <=? 50) with false by (symmetry; apply Nat.leb_gt; lia).
  rewrite (slide_more tk 512 50 tokens) by lia.
  rewrite (slide_more tk 512 50 tokens) by lia.
  rewrite (slide_last tk 512 50 tokens) by lia.
  cbn [number skipn]. do 3 eexists. split; [reflexivity|].
  cbn [span].
  replace (0 + (512 - 50) + (512 - 50)) with (2 * (512 - 50)) by lia.
  replace (0 + (512 - 50)) with (512 - 50) by lia.
  rewrite !length_firstn, !length_skipn, H.
  split; [lia|]. split; [lia|]. split; [lia|].
  split; [|repeat split].
  rewrite firstn_firstn, skipn_firstn_comm.
  f_equal.
Qed.

Lemma chunker_scenario_A_witness :
  length (tokenize CoreSamples.characters
            (raw_text (CoreSamples.document CoreSamples.long_text))) = 1200
  /\ exists c1 c2 c3,
       chunker CoreSamples.characters default_chunking
         (CoreSamples.document CoreSamples.long_text) = Ok [c1; c2; c3]
       /\ length (span c1) = 512
       /\ length (span c2) = 512
       /\ 0 < length (span c3) <= 512
       /\ firstn 50 (span c2) = skipn (512 - 50) (span c1)
       /\ span c1 = firstn 512 (tokenize CoreSamples.characters
                                  (raw_text (CoreSamples.document CoreSamples.long_text)))
       /\ span c2 = firstn 512 (skipn (512 - 50)
                                  (tokenize CoreSamples.characters
                                     (raw_text (CoreSamples.document CoreSamples.long_text))))
       /\ span c3 = firstn 512 (skipn (2 * (512 - 50))
                                  (tokenize CoreSamples.characters
                                     (raw_text (CoreSamples.document CoreSamples.long_text)))).
Proof.
  split.
  - vm_compute. reflexivity.
  - apply (chunker_scenario_A CoreSamples.characters
             (CoreSamples.document CoreSamples.long_text)).
    vm_compute. reflexivity.
Defined.

(** C2. For every normalized text and every configuration with the
    overlap below the chunk size, the Chunker returns chunks, and their
    concatenation with the overlapping spans removed is the text. *)
Theorem chunker_reconstructs (tk : Tokenizer) (cfg : ChunkingConfig) (doc : Document) :
  Normalized tk (raw_text doc) ->
  overlap cfg < chunk_size cfg ->
  exists chunks,
    chunker tk cfg doc = Ok chunks
    /\ reconstruct tk cfg chunks = raw_text doc.
Proof.
  intros Hn Hv. unfold chunker.
  replace (chunk_size cfg <=? overlap cfg) with false
    by (symmetry; apply Nat.leb_gt; exact Hv).
  eexists. split; [reflexivity|].
  unfold reconstruct. rewrite deoverlap_number. unfold windows.
  pose proof (windows_cover tk (chunk_size cfg) (overlap cfg) Hv
                (tokenize tk (raw_text doc))) as Hc.
  cbv zeta in Hc.
  destruct (slide tk _ _ _ 0 _) as [|w ws].
  - rewrite <- Hc. exact Hn.
  - rewrite Hc. exact Hn.
Qed.

Lemma chunker_reconstructs_witness :
  Normalized CoreSamples.characters (raw_text (CoreSamples.document CoreSamples.short_text))
  /\ overlap CoreSamples.small_windows < chunk_size CoreSamples.small_windows
  /\ exists chunks,
       chunker CoreSamples.characters CoreSamples.small_windows
         (CoreSamples.document CoreSamples.short_text) = Ok chunks
       /\ reconstruct CoreSamples.characters CoreSamples.small_windows chunks
          = raw_text (CoreSamples.document CoreSamples.short_text).
Proof.
  split; [reflexivity|]. split; [cbn; lia|].
  apply (chunker_reconstructs CoreSamples.characters CoreSamples.small_windows
           (CoreSamples.document CoreSamples.short_text)).
  - reflexivity.
  - cbn; lia.
Defined.

Example chunker_short_text :
  match chunker CoreSamples.characters CoreSamples.small_windows
          (CoreSamples.document CoreSamples.short_text) with
  | Ok chunks =>
      map (chunk_text CoreSamples.characters) chunks
      = ["a visa i"; "a is a p"; "a permis"; "mission "; "on to en"; " enter"]
  | Err _ => False
  end.
Proof. reflexivity. Qed.

Example chunker_rejects_overlap :
  chunker CoreSamples.characters {| chunk_size := 50; overlap := 50 |}
    (CoreSamples.document CoreSamples.short_text) = Err InvalidChunkingConfig.
Proof. reflexivity. Qed.

End ChunkerFacts.

Module RetrieverFacts.
Import Core.

Section Sorting.

Variable A : Type.
Variable key : A -> Q.

Let desc (a b : A) : Prop := (key b <= key a)%Q.

Lemma Forall_insert_desc (P : A -> Prop) x l :
  P x -> Forall P l -> Forall P (insert_desc key x l).
Proof.
  intros Hx Hl. induction Hl as [|y l Hy Hl IH]; cbn [insert_desc].
  - now constructor.
  - destruct (Qle_bool (key y) (key x)); repeat constructor; assumption.
Qed.

Lemma insert_desc_sorted x l :
  StronglySorted desc l -> StronglySorted desc (insert_desc key x l).
Proof.
  induction 1 as [|y l Hs IH Hy]; cbn [insert_desc].
  - constructor; constructor.
  - destruct (Qle_bool (key y) (key x)) eqn:E.
    + apply Qle_bool_iff in E.
      constructor; [now constructor|].
      constructor; [exact E|].
      eapply Forall_impl; [|exact Hy].
      intros z Hz. unfold desc in *. now apply Qle_trans with (key y).
    + constructor; [exact IH|].
      apply Forall_insert_desc; [|exact Hy].
      unfold desc. apply Qlt_le_weak, Qnot_le_lt.
      intros Hle. apply Qle_bool_iff in Hle. congruence.
Qed.

Lemma sort_desc_sorted l : StronglySorted desc (sort_desc key l).
Proof.
  induction l as [|x l IH]; cbn [sort_desc fold_right].
  - constructor.
  - now apply insert_desc_sorted.
Qed.

Lemma Forall_sort_desc (P : A -> Prop) l :
  Forall P l -> Forall P (sort_desc key l).
Proof.
  induction 1 as [|x l Hx Hl IH]; cbn [sort_desc fold_right].
  - constructor.
  - now apply Forall_insert_desc.
Qed.

Lemma Forall_take (P : A -> Prop) k : forall l,
  Forall P l -> Forall P (firstn k l).
Proof.
  induction k as [|k IH]; intros l Hl; [constructor|].
  destruct Hl as [|x l Hx Hl]; [constructor|].
  cbn [firstn]. constructor; [exact Hx | now apply IH].
Qed.

Lemma firstn_sorted k : forall l,
  StronglySorted desc l -> StronglySorted desc (firstn k l).
Proof.
  induction k as [|k IH]; intros l Hl; [constructor|].
  destruct Hl as [|x l Hs Hx]; [constructor|].
  cbn [firstn]. constructor; [now apply IH | now apply Forall_take].
Qed.

End Sorting.

(** C3. The Retriever returns at most [top_k] results, best first: by
    descending similarity, or, when reranking is enabled, by descending
    rerank score, every result then carrying the score of the reranker.
    It fails only with the failure of the embedding or of the index. *)
Theorem retrieve_top_k_best_first (tk : Tokenizer) (sv : Services tk)
    (cfg : PipelineConfig) (idx : VectorIndex tk)
    (question : string) (top_k : nat) (use_reranking : bool) :
  (exists rs,
     snd (retrieve sv cfg idx question top_k use_reranking) = Ok rs
     /\ length rs <= top_k
     /\ if use_reranking
        then best_first ranking rs
             /\ Forall (fun r => rerank_score r
                                 = Some (rerank_signal sv question (chunk r))) rs
        else best_first score rs
             /\ Forall (fun r => rerank_score r = None) rs)
  \/ (exists f,
        snd (retrieve sv cfg idx question top_k use_reranking) = Err f
        /\ (embed sv question = Err f
            \/ (reachable idx = false /\ f = IndexUnavailable))).
Proof.
  unfold retrieve.
  destruct (embed sv question) as [v|f]; [|right; exists f; auto].
  unfold index_query.
  destruct (reachable idx); cbn [negb];
    [|right; exists IndexUnavailable; auto].
  left. destruct use_reranking; cbn [snd]; eexists; (split; [reflexivity|]).
  - split; [apply firstn_le_length|]. split.
    + apply firstn_sorted, sort_desc_sorted.
    + apply Forall_take, Forall_sort_desc, Forall_forall.
      intros r Hr. apply in_map_iff in Hr as [r' [<- _]]. reflexivity.
  - split; [apply firstn_le_length|]. split.
    + apply firstn_sorted, sort_desc_sorted.
    + apply Forall_take, Forall_sort_desc, Forall_forall.
      intros r Hr. apply in_map_iff in Hr as [e [<- _]]. reflexivity.
Qed.

Example retrieve_small_index :
  match snd (retrieve CoreSamples.ranked_services CoreSamples.config
               CoreSamples.small_index CoreSamples.partner_question 3 false) with
  | Ok rs => map (fun r => ordinal (chunk r)) rs = [0; 2; 3]
  | Err _ => False
  end.
Proof. reflexivity. Qed.

Example retrieve_small_index_reranked :
  match snd (retrieve CoreSamples.ranked_services CoreSamples.config
               CoreSamples.small_index CoreSamples.partner_question 3 true) with
  | Ok rs => map (fun r => ordinal (chunk r)) rs = [3; 2; 1]
  | Err _ => False
  end.
Proof. reflexivity. Qed.

End RetrieverFacts.

Module PipelineFacts.
Import Core.

(** C4. A query with an empty question is refused as an [InputError]
    before any step: no call is made, to the Embedding Generator, to the
    index or to the Generator, and the response carries the error in place
    of an answer and sources. The frontend never sends such a query: on a
    question that is empty once trimmed, [handleQuery] does nothing. *)
Theorem query_empty_question (tk : Tokenizer) (sv : Services tk)
    (cfg : PipelineConfig) (idx : VectorIndex tk)
    (topK : option nat) (useReranking : option bool) :
  let out := query sv cfg idx "" topK useReranking in
  fst out = []
  /\ embedding_calls (fst out) = []
  /\ generator_calls (fst out) = []
  /\ status (snd out) = failed EmptyQuestion
  /\ InputError EmptyQuestion = true
  /\ answer (snd out) = None
  /\ sources (snd out) = []
  /\ forall st server,
       trim (QueryInterface.question st) = [] ->
       QueryInterface.handleQuery st server = [].
Proof.
  cbv zeta. repeat split.
  intros st server H. unfold QueryInterface.handleQuery. now rewrite H.
Qed.

Lemma retrieve_empty_index (tk : Tokenizer) (sv : Services tk)
    (cfg : PipelineConfig) (idx : VectorIndex tk) question top_k rr v :
  reachable idx = true -> entries idx = [] -> embed sv question = Ok v ->
  snd (retrieve sv cfg idx question top_k rr) = Ok []
  /\ generator_calls (fst (retrieve sv cfg idx question top_k rr)) = [].
Proof.
  intros Hr He Hv. unfold retrieve, index_query.
  rewrite Hv, Hr, He. cbn [negb map sort_desc fold_right].
  rewrite !firstn_nil. destruct rr; cbn; rewrite ?firstn_nil; split; reflexivity.
Qed.

(** C5. A query against an empty index retrieves no chunk and still
    invokes the generator, once, with a prompt that states that no
    grounding context was found; the response has no sources and is a
    success with the generator's answer, the only failure left being the
    generator's own. *)
Theorem query_empty_index (tk : Tokenizer) (sv : Services tk)
    (cfg : PipelineConfig) (idx : VectorIndex tk)
    (question : string) (topK : option nat) (useReranking : option bool)
    (v : Embedding) :
  question <> "" ->
  reachable idx = true ->
  entries idx = [] ->
  embed sv question = Ok v ->
  tokens_of tk (system_instructions cfg) + tokens_of tk question <= context_window cfg ->
  let r := {| request_model := generator_model cfg;
              prompt := {| instructions := system_instructions cfg;
                           context := NoGroundingContext;
                           prompt_question := question |};
              max_tokens := generation_max_tokens cfg;
              temperature := generation_temperature cfg;
              stream := false |} in
  let out := query sv cfg idx question topK useReranking in
  generator_calls (fst out) = [r]
  /\ sources (snd out) = []
  /\ (forall c, infer sv r = Ok c ->
                status (snd out) = success /\ answer (snd out) = Some (text c))
  /\ (forall f, infer sv r = Err f -> status (snd out) = failed f).
Proof.
  intros Hq Hr He Hv Hb r out. subst out. unfold query.
  destruct question as [|c0 q0]; [contradiction|]. cbn [is_empty].
  set (q := String c0 q0) in *.
  set (k := match topK with Some k => k | None => top_k_results cfg end).
  set (rr := match useReranking with Some b => b | None => use_reranking cfg end).
  destruct (retrieve_empty_index tk sv cfg idx q k rr v Hr He Hv) as [R1 R2].
  destruct (retrieve sv cfg idx q k rr) as [calls res].
  cbn [fst snd] in R1, R2. subst res.
  unfold build_prompt.
  replace (context_window cfg <? tokens_of tk (system_instructions cfg) + tokens_of tk q)
    with false by (symmetry; apply Nat.ltb_ge; exact Hb).
  fold r.
  assert (G : generator_calls (calls ++ [CallGenerate r]) = [r]).
  { unfold generator_calls in *. now rewrite flat_map_app, R2. }
  destruct (infer sv r) as [c|f]; cbn [fst snd].
  - split; [exact G|]. split; [reflexivity|]. split.
    + intros c' [= <-]. split; reflexivity.
    + discriminate.
  - split; [exact G|]. split; [reflexivity|]. split.
    + discriminate.
    + intros f' [= <-]. reflexivity.
Qed.

Lemma query_empty_index_witness :
  CoreSamples.partner_question <> ""
  /\ let r := {| request_model := generator_model CoreSamples.config;
                 prompt := {| instructions := system_instructions CoreSamples.config;
                              context := NoGroundingContext;
                              prompt_question := CoreSamples.partner_question |};
                 max_tokens := generation_max_tokens CoreSamples.config;
                 temperature := generation_temperature CoreSamples.config;
                 stream := false |} in
     let out := query CoreSamples.services CoreSamples.config CoreSamples.empty_index
                  CoreSamples.partner_question None None in
     generator_calls (fst out) = [r]
     /\ sources (snd out) = []
     /\ (forall c, infer CoreSamples.services r = Ok c ->
                   status (snd out) = success /\ answer (snd out) = Some (text c))
     /\ (forall f, infer CoreSamples.services r = Err f -> status (snd out) = failed f).
Proof.
  split.
  - discriminate.
  - apply (query_empty_index CoreSamples.characters CoreSamples.services
             CoreSamples.config CoreSamples.empty_index
             CoreSamples.partner_question None None [1%Q; 0%Q]).
    + discriminate.
    + reflexivity.
    + reflexivity.
    + reflexivity.
    + vm_compute. lia.
Defined.

Example query_empty_index_response :
  let out := query CoreSamples.services CoreSamples.config CoreSamples.empty_index
               CoreSamples.partner_question None None in
  status (snd out) = success
  /\ answer (snd out) = Some "I found no grounding context for this question."
  /\ length (fst out) = 3.
Proof. repeat split. Qed.

End PipelineFacts.

(* ===================================================================== *)
(** * Further properties of the frontend *)
(* ===================================================================== *)

Module TrimFacts.

Lemma Blank_app a b : Blank a -> Blank b -> Blank (a ++ b).
Proof. unfold Blank. intros; apply Forall_app; now split. Qed.

Lemma Blank_rev a : Blank a -> Blank (rev a).
Proof. unfold Blank. apply Forall_rev. Qed.

Lemma trimStart_decomp s : exists ws, s = ws ++ trimStart s /\ Blank ws.
Proof.
  induction s as [|c s [ws [E B]]]; cbn [trimStart].
  - exists []. split; [reflexivity | constructor].
  - destruct (isWhiteSpace c) eqn:W.
    + exists (c :: ws). split; [cbn; now f_equal | now constructor].
    + exists []. split; [reflexivity | constructor].
Qed.

Lemma trimStart_head s c r : trimStart s = c :: r -> isWhiteSpace c = false.
Proof.
  induction s as [|d s IH]; cbn [trimStart]; [discriminate|].
  destruct (isWhiteSpace d) eqn:W; [exact IH|].
  intros [= <- _]. exact W.
Qed.

Lemma trimStart_keeps c r : isWhiteSpace c = false -> trimStart (c :: r) = c :: r.
Proof. intros W. cbn [trimStart]. now rewrite W. Qed.

Lemma trimStart_blank s : Blank s -> trimStart s = [].
Proof.
  induction 1 as [|c s W _ IH]; cbn [trimStart]; [reflexivity|]. now rewrite W.
Qed.

Lemma trimEnd_decomp s : exists ws, s = trimEnd s ++ ws /\ Blank ws.
Proof.
  unfold trimEnd. destruct (trimStart_decomp (rev s)) as [ws [E B]].
  exists (rev ws). split; [|now apply Blank_rev].
  rewrite <- rev_app_distr, <- E. symmetry. apply rev_involutive.
Qed.

Lemma trimEnd_last s r c : trimEnd s = r ++ [c] -> isWhiteSpace c = false.
Proof.
  unfold trimEnd. intros E.
  apply (f_equal (@rev N)) in E. rewrite rev_involutive, rev_app_distr in E.
  cbn in E. now apply trimStart_head in E.
Qed.

(** A string that starts with a visible unit keeps it when its end is
    trimmed. *)
Lemma trimEnd_head c r :
  isWhiteSpace c = false -> exists r', trimEnd (c :: r) = c :: r'.
Proof.
  intros W. destruct (trimEnd_decomp (c :: r)) as [ws [E B]].
  destruct (trimEnd (c :: r)) as [|d r'] eqn:T.
  - cbn in E. subst ws. inversion B; congruence.
  - injection E as -> _. now exists r'.
Qed.

Lemma trim_decomp s :
  exists pre post, s = pre ++ trim s ++ post /\ Blank pre /\ Blank post.
Proof.
  unfold trim. destruct (trimStart_decomp s) as [pre [E1 B1]].
  destruct (trimEnd_decomp (trimStart s)) as [post [E2 B2]].
  exists pre, post. split; [|now split]. now rewrite <- E2.
Qed.

Lemma trim_Trimmed s : trim s <> [] -> Trimmed (trim s).
Proof.
  intros H. split.
  - unfold trim in *. destruct (trimStart s) as [|c r] eqn:T; [now elim H|].
    pose proof (trimStart_head _ _ _ T) as W.
    destruct (trimEnd_head c r W) as [r' E]. now exists c, r'.
  - destruct (exists_last H) as [r [c E]]. exists r, c. split; [exact E|].
    unfold trim in E. now apply trimEnd_last in E.
Qed.

Lemma trim_blank s : trim s = [] <-> Blank s.
Proof.
  split.
  - intros H. destruct (trim_decomp s) as [pre [post [E [B1 B2]]]].
    rewrite H in E. rewrite E. now apply Blank_app.
  - intros B. unfold trim. now rewrite (trimStart_blank s B).
Qed.

End TrimFacts.

Module HandlerFacts.
Import QueryInterface TrimFacts QueryInterfaceFacts.

(** The error object [handleQuery] builds when the request fails. *)
Lemma handleQuery_trace (st : State) (server : Request -> Outcome) c t :
  trim (question st) = c :: t ->
  handleQuery st server
  = [onLoading true; http (ragApi.query (VObj [("question", VStr (c :: t))]))]
      ++ match server (ragApi.query (VObj [("question", VStr (c :: t))])) with
         | Resolved result => [onQueryResult result]
         | Rejected =>
             [console_error (lit "Query error:");
              onQueryResult
                (VObj [("status", VStr (lit "error"));
                       ("question", VStr (question st));
                       ("error", VStr (lit "Failed to process query. Please try again."))])]
         end
      ++ [onLoading false].
Proof. intros E. unfold handleQuery. rewrite E. reflexivity. Qed.

(** X1. Whatever [handleQuery] sends carries a question that is not empty
    and has no white space at either end: the typed question with the
    white space around it removed, and nothing else removed. *)
Theorem handleQuery_request_is_trimmed (st : State) (server : Request -> Outcome) :
  Forall (fun r => exists q pre post,
            r = PostJson "/query" (VObj [("question", VStr q)])
            /\ Trimmed q
            /\ question st = pre ++ q ++ post
            /\ Blank pre /\ Blank post)
         (requests (handleQuery st server)).
Proof.
  destruct (trim (question st)) as [|c t] eqn:E.
  - unfold handleQuery. rewrite E. constructor.
  - rewrite (handleQuery_trace st server c t E), !requests_app.
    replace (requests (match server _ with Resolved _ => _ | Rejected => _ end))
      with (@nil Request) by (destruct (server _); reflexivity).
    cbn [requests flat_map app]. constructor; [|constructor].
    destruct (trim_decomp (question st)) as [pre [post [D [B1 B2]]]].
    exists (c :: t), pre, post. split; [reflexivity|].
    split; [rewrite <- E; apply trim_Trimmed; congruence|].
    split; [now rewrite <- E | now split].
Qed.

(** X2. Whichever way the request ends, [handleQuery] leaves [App] not
    loading and holding a result: the server's data, or the error object
    when the request fails. On a blank question [App] is left as it was. *)
Theorem handleQuery_settles_app (page : App.AppState) (st : State)
    (server : Request -> Outcome) :
  match trim (question st) with
  | [] => App.after page (handleQuery st server) = page
  | q =>
      App.loading (App.after page (handleQuery st server)) = false
      /\ App.queryResult (App.after page (handleQuery st server))
         = match server (ragApi.query (VObj [("question", VStr q)])) with
           | Resolved result => result
           | Rejected =>
               VObj [("status", VStr (lit "error"));
                     ("question", VStr (question st));
                     ("error", VStr (lit "Failed to process query. Please try again."))]
           end
  end.
Proof.
  destruct (trim (question st)) as [|c t] eqn:E.
  - unfold handleQuery. now rewrite E.
  - rewrite (handleQuery_trace st server c t E).
    destruct (server _); split; reflexivity.
Qed.

(** X3. After a failed request the conversation shows the question as it
    was typed, white space included, and the error bubble with the fixed
    message; no answer is shown. *)
Theorem failed_query_shows_error (page : App.AppState) (st : State)
    (server : Request -> Outcome) :
  trim (question st) <> [] ->
  server (ragApi.query (VObj [("question", VStr (trim (question st)))])) = Rejected ->
  Conversation.shown (App.after page (handleQuery st server))
  = Conversation.Card
      (Conversation.UserBubble (VStr (question st)))
      (Conversation.ErrorBubble
         (VStr (lit "Failed to process query. Please try again."))).
Proof.
  intros H R. destruct (trim (question st)) as [|c t] eqn:E; [contradiction|].
  rewrite (handleQuery_trace st server c t E), R. reflexivity.
Qed.

Lemma failed_query_shows_error_witness :
  trim (question (Samples.idle (lit " visa? "))) <> []
  /\ Samples.offline
       (ragApi.query (VObj [("question", VStr (trim (question (Samples.idle (lit " visa? ")))))]))
     = Rejected
  /\ Conversation.shown
       (App.after App.initial (handleQuery (Samples.idle (lit " visa? ")) Samples.offline))
     = Conversation.Card
         (Conversation.UserBubble (VStr (question (Samples.idle (lit " visa? ")))))
         (Conversation.ErrorBubble
            (VStr (lit "Failed to process query. Please try again."))).
Proof.
  split; [vm_compute; discriminate|]. split; [reflexivity|].
  apply (failed_query_shows_error App.initial (Samples.idle (lit " visa? ")) Samples.offline).
  - vm_compute. discriminate.
  - reflexivity.
Defined.

(** X4. A response the server does send is shown only when its status is
    'success' or 'error': a falsy payload hides the conversation, and a
    payload with any other status, or none, leaves the question without
    any reply, neither answer nor error. *)
Theorem unrecognised_response_shows_no_reply (page : App.AppState) (st : State)
    (server : Request -> Outcome) (data : value) :
  trim (question st) <> [] ->
  server (ragApi.query (VObj [("question", VStr (trim (question st)))])) = Resolved data ->
  strict_eq_str (Conversation.prop data "status") (lit "success") = false ->
  strict_eq_str (Conversation.prop data "status") (lit "error") = false ->
  Conversation.shown (App.after page (handleQuery st server))
  = if truthy_value data
    then Conversation.Card
           (Conversation.UserBubble (Conversation.prop data "question"))
           Conversation.NoReply
    else Conversation.Hidden data.
Proof.
  intros H R S1 S2. destruct (trim (question st)) as [|c t] eqn:E; [contradiction|].
  rewrite (handleQuery_trace st server c t E), R.
  change (App.after page _)
    with {| App.queryResult := data; App.loading := false |}.
  unfold Conversation.shown, Conversation.conversation.
  cbn [App.loading App.queryResult orb].
  rewrite S1, S2. destruct (truthy_value data); reflexivity.
Qed.

Lemma unrecognised_response_shows_no_reply_witness :
  trim (question (Samples.idle (lit "visa?"))) <> []
  /\ strict_eq_str (Conversation.prop MoreSamples.timeout_response "status") (lit "success")
     = false
  /\ strict_eq_str (Conversation.prop MoreSamples.timeout_response "status") (lit "error")
     = false
  /\ Conversation.shown
       (App.after App.initial
          (handleQuery (Samples.idle (lit "visa?"))
             (MoreSamples.answering MoreSamples.timeout_response)))
     = Conversation.Card (Conversation.UserBubble (VStr (lit "visa?"))) Conversation.NoReply.
Proof.
  split; [vm_compute; discriminate|]. split; [reflexivity|]. split; [reflexivity|].
  apply (unrecognised_response_shows_no_reply App.initial (Samples.idle (lit "visa?"))
           (MoreSamples.answering MoreSamples.timeout_response)
           MoreSamples.timeout_response).
  - vm_compute. discriminate.
  - reflexivity.
  - reflexivity.
  - reflexivity.
Defined.

(** X17. While a query is awaited the conversation shows the spinner next
    to the question of the previous response, if there is one, and no
    bubble otherwise: the question just asked is not shown before its
    reply arrives. *)
Theorem awaited_query_shows_previous_question (page : App.AppState) (st : State)
    (server : Request -> Outcome) :
  trim (question st) <> [] ->
  Conversation.shown (App.after page (InFlight.before_reply (handleQuery st server)))
  = Conversation.Card
      (if truthy_value (App.queryResult page)
       then Conversation.UserBubble (Conversation.prop (App.queryResult page) "question")
       else Conversation.NoBubble (App.queryResult page))
      Conversation.Spinner.
Proof.
  intros H. destruct (trim (question st)) as [|c t] eqn:E; [contradiction|].
  rewrite (handleQuery_trace st server c t E). reflexivity.
Qed.

Lemma awaited_query_shows_previous_question_witness :
  trim (question (Samples.idle (lit "student visa?"))) <> []
  /\ Conversation.shown
       (App.after {| App.queryResult := MoreSamples.timeout_response; App.loading := false |}
          (InFlight.before_reply
             (handleQuery (Samples.idle (lit "student visa?")) Samples.offline)))
     = Conversation.Card (Conversation.UserBubble (VStr (lit "visa?"))) Conversation.Spinner.
Proof.
  split; [vm_compute; discriminate|].
  apply (awaited_query_shows_previous_question
           {| App.queryResult := MoreSamples.timeout_response; App.loading := false |}
           (Samples.idle (lit "student visa?")) Samples.offline).
  vm_compute. discriminate.
Defined.

Lemma handleQuery_failure_response_witness :
  trim (question (Samples.idle (lit " visa? "))) <> []
  /\ exists r,
       In (onQueryResult r) (handleQuery (Samples.idle (lit " visa? ")) Samples.offline)
       /\ has_type Types.QueryResponse r = true
       /\ get r "status" = Some (VStr (lit "error"))
       /\ get r "question" = Some (VStr (question (Samples.idle (lit " visa? "))))
       /\ Types.errored r = true
       /\ present r "metadata" = false.
Proof.
  split; [vm_compute; discriminate|].
  apply (TypesFacts.handleQuery_failure_response (Samples.idle (lit " visa? ")) Samples.offline).
  - vm_compute. discriminate.
  - reflexivity.
Defined.

End HandlerFacts.

Module UploadFacts.
Import QueryInterface Timers QueryInterfaceFacts.

Lemma run_app st a b : run st (a ++ b) = run (run st a) b.
Proof. apply fold_left_app. Qed.

Lemma callbacks_app a b : callbacks (a ++ b) = callbacks a ++ callbacks b.
Proof. apply flat_map_app. Qed.

Lemma callbacks_progress ps : callbacks (map setUploadProgress ps) = [].
Proof. induction ps as [|p ps IH]; [reflexivity | exact IH]. Qed.

Lemma requests_progress ps : requests (map setUploadProgress ps) = [].
Proof. induction ps as [|p ps IH]; [reflexivity | exact IH]. Qed.

Lemma handleFileUpload_trace st file server :
  let r := ragApi.ingestDocument file None None (Some (lit "uploaded")) in
  handleFileUpload st (Some file) server
  = [setUploadLoading true; setUploadProgress 0; setUploadResult None; http r]
      ++ map setUploadProgress (flat_map onUploadProgress (progressEvents (server r)))
      ++ ending (outcome (server r)).
Proof. reflexivity. Qed.

Lemma requests_ending o : requests (ending o) = [].
Proof.
  destruct o as [result|]; [|reflexivity]. cbn [ending].
  destruct (get result "status") as [status|]; [|reflexivity].
  destruct (strict_eq_str status (lit "success")); reflexivity.
Qed.

(** X5. A selected file of at most 100 megabytes, the limit included, is
    uploaded at once: the size error is cleared, the file is selected, and
    exactly one request is sent, a form to /ingest with the file and the
    document type 'uploaded' and neither source nor section. *)
Theorem handleFileSelect_uploads_file
    (st : State) (file : File) (server : Request -> Upload) :
  (file_size file <= 100 * 1024 * 1024)%N ->
  requests (handleFileSelect st (Some file) server)
  = [PostForm "/ingest" [("file", FormFile file); ("doc_type", FormText (lit "uploaded"))]]
  /\ exists rest,
       handleFileSelect st (Some file) server
       = setFileSizeError None :: setUploadFile (Some file) :: setUploadResult None :: rest.
Proof.
  intros H. unfold handleFileSelect.
  replace (MAX_FILE_SIZE <? file_size file)%N with false
    by (symmetry; apply N.ltb_ge; exact H).
  split; [|eexists; reflexivity].
  rewrite handleFileUpload_trace. cbv zeta.
  rewrite !requests_app, requests_progress, requests_ending. reflexivity.
Qed.

Lemma handleFileSelect_uploads_file_witness :
  (file_size MoreSamples.limit_pdf <= 100 * 1024 * 1024)%N
  /\ requests (handleFileSelect (Samples.idle []) (Some MoreSamples.limit_pdf)
                 Samples.offline_upload)
     = [PostForm "/ingest" [("file", FormFile MoreSamples.limit_pdf);
                            ("doc_type", FormText (lit "uploaded"))]].
Proof.
  split.
  - vm_compute. discriminate.
  - apply (handleFileSelect_uploads_file (Samples.idle []) MoreSamples.limit_pdf
             Samples.offline_upload).
    vm_compute. discriminate.
Defined.

(** X6. However an upload ends, resolved with any payload or rejected,
    once its timer has fired the component is no longer loading, the
    progress is back at 0 and the progress banner is gone. *)
Theorem upload_always_settles
    (st : State) (file : File) (server : Request -> Upload) :
  let trace := handleFileUpload st (Some file) server in
  uploadLoading (settle st trace) = false
  /\ uploadProgress (settle st trace) = 0%Z
  /\ progressBanner (settle st trace) = None.
Proof.
  cbv zeta. unfold progressBanner, settle. rewrite handleFileUpload_trace. cbv zeta.
  rewrite !callbacks_app, callbacks_progress, !run_app.
  destruct (outcome (server _)) as [result|]; [|repeat split].
  cbn [ending].
  destruct (get result "status") as [status|]; [|repeat split].
  destruct (strict_eq_str status (lit "success")); repeat split.
Qed.

(** X7. An upload always leaves a result to show: the server's payload
    when the request resolves with one whose status can be read, and the
    error object 'Failed to upload document. Please try again.' when the
    request is rejected or resolves with [null] or [undefined]. *)
Theorem upload_result
    (st : State) (file : File) (server : Request -> Upload) :
  let r := ragApi.ingestDocument file None None (Some (lit "uploaded")) in
  uploadResult (settle st (handleFileUpload st (Some file) server))
  = Some match outcome (server r) with
         | Resolved VUndefined | Resolved VNull | Rejected => uploadError
         | Resolved result => result
         end.
Proof.
  cbv zeta. unfold settle. rewrite handleFileUpload_trace. cbv zeta.
  rewrite !callbacks_app, callbacks_progress, !run_app.
  destruct (outcome (server _)) as [result|]; [|reflexivity].
  destruct result; try reflexivity; cbn [ending get];
    match goal with
    | |- context [lookup ?k ?p] => destruct (lookup k p) as [status|]
    | _ => idtac
    end;
    match goal with
    | |- context [strict_eq_str ?s ?l] => destruct (strict_eq_str s l)
    | _ => idtac
    end; reflexivity.
Qed.

Lemma Math_round_percentage (loaded total : N) :
  (loaded <= total)%N -> total <> 0%N ->
  (0 <= Math_round (inject_Z (Z.of_N loaded * 100) / inject_Z (Z.of_N total)) <= 100)%Z.
Proof.
  intros Hle Hnz. unfold Math_round.
  assert (Ht : (0 < inject_Z (Z.of_N total))%Q)
    by (rewrite <- (Zlt_Qlt 0); lia).
  split.
  - apply Z.le_trans with (m := Qfloor (0 + (1 # 2)));
      [vm_compute; discriminate | apply Qfloor_resp_le].
    apply Qplus_le_l, Qle_shift_div_l; [exact Ht|].
    rewrite Qmult_0_l, <- (Zle_Qle 0). lia.
  - apply Z.le_trans with (m := Qfloor (inject_Z 100 + (1 # 2)));
      [apply Qfloor_resp_le | vm_compute; discriminate].
    apply Qplus_le_l, Qle_shift_div_r; [exact Ht|].
    rewrite <- inject_Z_mult, <- Zle_Qle. lia.
Qed.

Lemma onUploadProgress_bounds ev :
  (forall total, snd ev = Some total -> (fst ev <= total)%N) ->
  Forall (fun p => (0 <= p <= 100)%Z) (onUploadProgress ev).
Proof.
  intros H. unfold onUploadProgress.
  destruct (snd ev) as [total|]; [|constructor].
  destruct (N.eqb_spec total 0); [constructor|].
  constructor; [|constructor].
  apply Math_round_percentage; [now apply H | assumption].
Qed.

Lemma ending_progress o :
  Forall (fun p => (0 <= p <= 100)%Z)
    (flat_map (fun e => match e with setUploadProgress p => [p] | _ => [] end) (ending o)).
Proof.
  destruct o as [result|]; [|cbn; constructor; [lia|constructor]].
  cbn [ending].
  destruct (get result "status") as [status|]; [|cbn; constructor; [lia|constructor]].
  destruct (strict_eq_str status (lit "success")); cbn;
    (constructor; [lia|constructor]).
Qed.

Lemma ending_timer_progress o :
  Forall (fun p => (0 <= p <= 100)%Z)
    (flat_map (fun e => match e with setUploadProgress p => [p] | _ => [] end)
       (callbacks (ending o))).
Proof.
  destruct o as [result|]; [|constructor].
  cbn [ending].
  destruct (get result "status") as [status|]; [|constructor].
  destruct (strict_eq_str status (lit "success")); cbn;
    [constructor; [lia|constructor] | constructor].
Qed.

(** X8. When no progress event reports more bytes loaded than its total,
    every progress value an upload sets lies between 0 and 100, and an
    event without a total, or with total 0, sets none. *)
Theorem upload_progress_in_range
    (st : State) (file : File) (server : Request -> Upload) :
  Forall (fun ev => forall total, snd ev = Some total -> (fst ev <= total)%N)
         (progressEvents
            (server (ragApi.ingestDocument file None None (Some (lit "uploaded"))))) ->
  Forall (fun p => (0 <= p <= 100)%Z)
         (progress_values (handleFileUpload st (Some file) server))
  /\ forall loaded, onUploadProgress (loaded, None) = []
                    /\ onUploadProgress (loaded, Some 0%N) = [].
Proof.
  intros H. split; [|split; reflexivity].
  unfold progress_values. rewrite handleFileUpload_trace. cbv zeta.
  rewrite !callbacks_app, callbacks_progress, !flat_map_app.
  apply Forall_app. split; [apply Forall_app; split; [|apply Forall_app; split]|].
  - cbn. constructor; [lia | constructor].
  - induction H as [|ev evs Hev _ IH]; [constructor|].
    cbn [flat_map]. rewrite map_app, flat_map_app.
    apply Forall_app. split; [|exact IH].
    pose proof (onUploadProgress_bounds ev Hev) as B.
    induction B as [|p ps Hp _ IHp]; [constructor|].
    cbn. constructor; assumption.
  - apply ending_progress.
  - cbn [callbacks flat_map app]. apply ending_timer_progress.
Qed.

Lemma upload_progress_in_range_witness :
  Forall (fun ev => forall total, snd ev = Some total -> (fst ev <= total)%N)
         (progressEvents
            (MoreSamples.uploading [(512%N, Some 1024%N); (700%N, None); (1024%N, Some 1024%N)]
               (Resolved MoreSamples.ingested)
               (ragApi.ingestDocument MoreSamples.limit_pdf None None (Some (lit "uploaded")))))
  /\ Forall (fun p => (0 <= p <= 100)%Z)
       (progress_values
          (handleFileUpload (Samples.idle []) (Some MoreSamples.limit_pdf)
             (MoreSamples.uploading
                [(512%N, Some 1024%N); (700%N, None); (1024%N, Some 1024%N)]
                (Resolved MoreSamples.ingested)))).
Proof.
  assert (H : Forall (fun ev : N * option N =>
                        forall total, snd ev = Some total -> (fst ev <= total)%N)
                [(512%N, Some 1024%N); (700%N, None); (1024%N, Some 1024%N)]).
  { repeat constructor; cbn; intros total; intros [= <-] || discriminate;
      vm_compute; discriminate. }
  split; [exact H|].
  apply (upload_progress_in_range (Samples.idle []) MoreSamples.limit_pdf
           (MoreSamples.uploading
              [(512%N, Some 1024%N); (700%N, None); (1024%N, Some 1024%N)]
              (Resolved MoreSamples.ingested))).
  exact H.
Defined.

Example upload_progress_values :
  progress_values
    (handleFileUpload (Samples.idle []) (Some MoreSamples.limit_pdf)
       (MoreSamples.uploading
          [(512%N, Some 1024%N); (700%N, None); (1024%N, Some 1024%N)]
          (Resolved MoreSamples.ingested)))
  = [0; 50; 100; 100; 0]%Z.
Proof. reflexivity. Qed.

(** X9. A file that exceeds the limit by up to 52428 bytes is refused
    with a message that gives its size as 100.0MB, the limit itself. *)
Theorem fileTooLarge_just_over_limit
    (st : State) (file : File) (server : Request -> Upload) :
  (100 * 1024 * 1024 < file_size file)%N ->
  (file_size file <= 100 * 1024 * 1024 + 52428)%N ->
  fileSizeError (run st (handleFileSelect st (Some file) server))
  = Some (lit "File too large. Maximum size is 100MB. Selected file: 100.0MB").
Proof.
  intros Hlo Hhi. unfold handleFileSelect.
  replace (MAX_FILE_SIZE <? file_size file)%N with true
    by (symmetry; apply N.ltb_lt; exact Hlo).
  cbn [run fold_left apply_effect fileSizeError].
  unfold fileTooLarge, megabytes_toFixed1.
  replace ((20 * file_size file + 1048576) / 2097152)%N with 1000%N; [reflexivity|].
  apply N.div_unique with (r := (20 * file_size file + 1048576 - 2097152000)%N); lia.
Qed.

Lemma fileTooLarge_just_over_limit_witness :
  (100 * 1024 * 1024 < file_size MoreSamples.over_pdf)%N
  /\ (file_size MoreSamples.over_pdf <= 100 * 1024 * 1024 + 52428)%N
  /\ fileSizeError (run (Samples.idle [])
                      (handleFileSelect (Samples.idle []) (Some MoreSamples.over_pdf)
                         Samples.offline_upload))
     = Some (lit "File too large. Maximum size is 100MB. Selected file: 100.0MB").
Proof.
  split; [reflexivity|]. split; [vm_compute; discriminate|].
  apply (fileTooLarge_just_over_limit (Samples.idle []) MoreSamples.over_pdf
           Samples.offline_upload).
  - reflexivity.
  - vm_compute. discriminate.
Defined.

Lemma run_progress_fields st ps :
  uploadLoading (run st (map setUploadProgress ps)) = uploadLoading st
  /\ uploadResult (run st (map setUploadProgress ps)) = uploadResult st.
Proof.
  revert st. induction ps as [|p ps IH]; intros st; [split; reflexivity|].
  cbn [map run fold_left]. destruct (IH (apply_effect st (setUploadProgress p))) as [A B].
  unfold run in A, B. rewrite A, B. split; reflexivity.
Qed.

Lemma Math_round_complete (total : N) :
  total <> 0%N ->
  Math_round (inject_Z (Z.of_N total * 100) / inject_Z (Z.of_N total)) = 100%Z.
Proof.
  intros H. unfold Math_round.
  rewrite Z.mul_comm, inject_Z_mult.
  rewrite (Qfloor_comp _ (inject_Z 100 + (1 # 2))); [reflexivity|].
  apply Qplus_inj_r, Qdiv_mult_l.
  intros E. unfold Qeq in E. cbn [inject_Z Qnum Qden] in E. lia.
Qed.

(** X19. When the last progress event reports the upload complete, then
    until the response is handled the progress banner reads 'Document
    uploaded successfully!', with no result stored yet: whether the server
    then accepts the document, reports an error or the request fails. *)
Theorem banner_claims_success_before_response
    (st : State) (file : File) (server : Request -> Upload)
    (events : list (N * option N)) (total : N) :
  total <> 0%N ->
  progressEvents (server (ragApi.ingestDocument file None None (Some (lit "uploaded"))))
  = events ++ [(total, Some total)] ->
  (exists rest,
     handleFileUpload st (Some file) server
     = awaiting_response file (events ++ [(total, Some total)]) ++ rest)
  /\ progressBanner (run st (awaiting_response file (events ++ [(total, Some total)])))
     = Some (lit "Document uploaded successfully!")
  /\ uploadResult (run st (awaiting_response file (events ++ [(total, Some total)])))
     = None.
Proof.
  intros Hnz Hev. split; [|split].
  - eexists. rewrite handleFileUpload_trace. cbv zeta. rewrite Hev.
    unfold awaiting_response. rewrite <- app_assoc. reflexivity.
  - unfold awaiting_response, progressBanner.
    rewrite flat_map_app, map_app, !run_app.
    cbn [flat_map onUploadProgress fst snd app].
    destruct (N.eqb_spec total 0) as [|_]; [contradiction|].
    rewrite Math_round_complete by exact Hnz.
    cbn [map run fold_left apply_effect uploadProgress uploadLoading].
    rewrite orb_true_r. reflexivity.
  - unfold awaiting_response.
    rewrite !run_app. destruct (run_progress_fields
      (run st [setUploadLoading true; setUploadProgress 0; setUploadResult None;
               http (ragApi.ingestDocument file None None (Some (lit "uploaded")))])
      (flat_map onUploadProgress (events ++ [(total, Some total)]))) as [_ B].
    rewrite B. reflexivity.
Qed.

Lemma banner_claims_success_before_response_witness :
  1024%N <> 0%N
  /\ progressEvents
       (MoreSamples.uploading [(512%N, Some 1024%N); (1024%N, Some 1024%N)] Rejected
          (ragApi.ingestDocument MoreSamples.limit_pdf None None (Some (lit "uploaded"))))
     = [(512%N, Some 1024%N)] ++ [(1024%N, Some 1024%N)]
  /\ progressBanner
       (run (Samples.idle [])
          (awaiting_response MoreSamples.limit_pdf
             ([(512%N, Some 1024%N)] ++ [(1024%N, Some 1024%N)])))
     = Some (lit "Document uploaded successfully!").
Proof.
  split; [discriminate|]. split; [reflexivity|].
  apply (banner_claims_success_before_response (Samples.idle []) MoreSamples.limit_pdf
           (MoreSamples.uploading [(512%N, Some 1024%N); (1024%N, Some 1024%N)] Rejected)
           [(512%N, Some 1024%N)] 1024%N).
  - discriminate.
  - reflexivity.
Defined.

Lemma append_if_nonempty name arg :
  Forall (fun f : string * FormValue =>
            fst f = name /\ exists s, snd f = FormText s /\ s <> [])
         (append_if name arg).
Proof.
  unfold append_if. destruct arg as [[|c s]|]; cbn [truthy]; try constructor.
  - split; [reflexivity|]. exists (c :: s). split; [reflexivity | discriminate].
  - constructor.
Qed.

(** X10. The form [ingestDocument] posts to /ingest starts with the file;
    after it come at most the fields source, section and doc_type, in that
    order, each only when its argument is a non-empty string: a missing or
    empty argument is left out, never sent as an empty field. *)
Theorem ingestDocument_form (file : File) (source section docType : option jsstring) :
  exists s1 s2 s3,
    ragApi.ingestDocument file source section docType
    = PostForm "/ingest" (("file", FormFile file) :: s1 ++ s2 ++ s3)
    /\ Forall (fun f => fst f = "source" /\ exists s, snd f = FormText s /\ s <> []) s1
    /\ Forall (fun f => fst f = "section" /\ exists s, snd f = FormText s /\ s <> []) s2
    /\ Forall (fun f => fst f = "doc_type" /\ exists s, snd f = FormText s /\ s <> []) s3
    /\ length s1 <= 1 /\ length s2 <= 1 /\ length s3 <= 1
    /\ (source = None \/ source = Some [] -> s1 = [])
    /\ (section = None \/ section = Some [] -> s2 = [])
    /\ (docType = None \/ docType = Some [] -> s3 = []).
Proof.
  exists (append_if "source" source), (append_if "section" section),
         (append_if "doc_type" docType).
  split; [reflexivity|].
  repeat split; try apply append_if_nonempty;
    try (unfold append_if;
         match goal with
         | |- context [match ?a with _ => _ end] =>
             destruct a as [[|? ?]|]; cbn; lia
         end);
    intros [-> | ->]; reflexivity.
Qed.

(** X11. The Ask button is disabled exactly when the question is blank,
    and exactly then [handleQuery] does nothing. *)
Theorem askDisabled_iff_nothing_to_ask (st : State) (server : Request -> Outcome) :
  (askDisabled st = true <-> Blank (question st))
  /\ (askDisabled st = true <-> handleQuery st server = []).
Proof.
  unfold askDisabled, handleQuery. rewrite <- TrimFacts.trim_blank.
  destruct (trim (question st)) as [|c t]; cbn [truthy negb].
  - repeat split; reflexivity.
  - repeat split; discriminate.
Qed.

End UploadFacts.

Module StatsFacts.
Import SystemStatsPanel StatsState.

(** X12. A failed refresh sends one GET /stats, keeps whatever statistics
    were loaded, and makes the panel show the error 'Failed to load system
    statistics' in their place. *)
Theorem failed_refresh_shows_error (st : PanelState) (server : Request -> Outcome) :
  server ragApi.getSystemStats = Rejected ->
  requests (fetchStats server) = [Get "/stats"]
  /\ stats (after st (fetchStats server)) = stats st
  /\ view (after st (fetchStats server))
     = Some (ErrorView (lit "Failed to load system statistics")).
Proof.
  intros R. unfold fetchStats. rewrite R. repeat split.
Qed.

Lemma failed_refresh_shows_error_witness :
  Samples.offline ragApi.getSystemStats = Rejected
  /\ view (after {| stats := Samples.stats; loading := false; error := None |}
             (fetchStats Samples.offline))
     = Some (ErrorView (lit "Failed to load system statistics")).
Proof.
  split; [reflexivity|].
  apply (failed_refresh_shows_error
           {| stats := Samples.stats; loading := false; error := None |} Samples.offline).
  reflexivity.
Defined.

Lemma after_resolved (st : PanelState) (server : Request -> Outcome) data :
  server ragApi.getSystemStats = Resolved data ->
  after st (fetchStats server) = {| stats := data; loading := false; error := None |}.
Proof. intros R. unfold fetchStats. rewrite R. reflexivity. Qed.

(** X13. A refresh that resolves clears an earlier error and stops the
    loading state, whatever the payload; a falsy payload then renders
    nothing, and an object payload that lacks one of the sections
    vector_store, retrieval or pipeline_config makes the render throw. *)
Theorem resolved_refresh (st : PanelState) (server : Request -> Outcome) (data : value) :
  server ragApi.getSystemStats = Resolved data ->
  error (after st (fetchStats server)) = None
  /\ loading (after st (fetchStats server)) = false
  /\ stats (after st (fetchStats server)) = data
  /\ (truthy_value data = false -> view (after st (fetchStats server)) = Some NullView)
  /\ (forall props,
        data = VObj props ->
        lookup "vector_store" props = None
        \/ lookup "retrieval" props = None
        \/ lookup "pipeline_config" props = None ->
        view (after st (fetchStats server)) = None).
Proof.
  intros R. rewrite (after_resolved st server data R). cbn [error loading stats].
  repeat split.
  - intros F. unfold view. cbn [loading error stats]. now rewrite F.
  - intros props -> H. unfold view. cbn [loading error stats truthy_value].
    unfold SystemStats, bind. cbn [get_path get].
    destruct H as [H | [H | H]]; rewrite H.
    + reflexivity.
    + repeat match goal with
             | |- match match ?x with _ => _ end with _ => _ end = None =>
                 destruct x; try reflexivity
             | |- match ?x with _ => _ end = None => destruct x; try reflexivity
             end.
    + repeat match goal with
             | |- match match ?x with _ => _ end with _ => _ end = None =>
                 destruct x; try reflexivity
             | |- match ?x with _ => _ end = None => destruct x; try reflexivity
             end.
Qed.

Lemma resolved_refresh_witness :
  MoreSamples.answering MoreSamples.error_payload ragApi.getSystemStats
  = Resolved MoreSamples.error_payload
  /\ error (after {| stats := VNull; loading := true;
                     error := Some (lit "Failed to load system statistics") |}
              (fetchStats (MoreSamples.answering MoreSamples.error_payload))) = None.
Proof.
  split; [reflexivity|].
  apply (resolved_refresh
           {| stats := VNull; loading := true;
              error := Some (lit "Failed to load system statistics") |}
           (MoreSamples.answering MoreSamples.error_payload) MoreSamples.error_payload).
  reflexivity.
Defined.

Example error_payload_breaks_render :
  view (after initial (fetchStats (MoreSamples.answering MoreSamples.error_payload))) = None.
Proof. reflexivity. Qed.

(** X14. The model name the panel shows, [embedding_model.split('/').pop()],
    is the part of the name after its last '/': it holds no '/', and what
    precedes it in the name is empty or ends with '/'. *)
Theorem lastSegment_after_last_separator (sep : N) (s : jsstring) :
  ~ In sep (lastSegment sep s)
  /\ exists pre, s = pre ++ lastSegment sep s
                 /\ (pre = [] \/ exists p, pre = p ++ [sep]).
Proof.
  induction s as [|c r [IH1 [pre [IH2 IH3]]]]; cbn [lastSegment].
  - split; [intros []|]. exists []. split; [reflexivity | now left].
  - destruct (existsb (N.eqb sep) r) eqn:E.
    + split; [exact IH1|]. exists (c :: pre). split; [cbn; now f_equal|].
      right. destruct IH3 as [-> | [p ->]].
      * exfalso. cbn in IH2. rewrite <- IH2 in IH1.
        apply existsb_exists in E as [x [Hx Hs]]. apply N.eqb_eq in Hs. now subst.
      * now exists (c :: p).
    + assert (Hr : ~ In sep r).
      { intros Hin. assert (existsb (N.eqb sep) r = true); [|congruence].
        apply existsb_exists. exists sep. split; [exact Hin | apply N.eqb_refl]. }
      destruct (N.eqb_spec c sep) as [-> | Hc].
      * split; [exact Hr|]. exists [sep]. split; [reflexivity|].
        right. now exists [].
      * split.
        -- intros [H | H]; [congruence | contradiction].
        -- exists []. split; [reflexivity | now left].
Qed.

End StatsFacts.

Module ResultDisplayFacts.
Import ResultDisplay TrimFacts.

(** X15. [formatAnswer] builds one entry per paragraph of a non-empty
    text: [null] exactly for the paragraphs that are blank, an element for
    every other one. *)
Theorem formatAnswer_skips_blank_paragraphs (text : jsstring) :
  text <> [] ->
  exists elements,
    formatAnswer text = Blocks elements
    /\ Forall2 (fun paragraph element => element = None <-> Blank paragraph)
               (split text [10%N; 10%N]) elements.
Proof.
  intros H. unfold formatAnswer.
  destruct text as [|c t]; [contradiction|]. cbn [truthy negb].
  eexists. split; [reflexivity|].
  induction (split (c :: t) [10%N; 10%N]) as [|p ps IH]; cbn [map]; constructor;
    [|exact IH].
  rewrite <- trim_blank. unfold block.
  destruct (trim p) as [|d r] eqn:E; cbn [truthy negb].
  - split; reflexivity.
  - split; [|discriminate].
    repeat match goal with
           | |- context [if ?b then _ else _] => destruct b
           end; discriminate.
Qed.

Lemma formatAnswer_skips_blank_paragraphs_witness :
  lit "Overview" ++ [10%N; 10%N] ++ lit "  " ++ [10%N; 10%N] ++ lit "- one" <> []
  /\ exists elements,
       formatAnswer (lit "Overview" ++ [10%N; 10%N] ++ lit "  " ++ [10%N; 10%N] ++ lit "- one")
       = Blocks elements
       /\ Forall2 (fun paragraph element => element = None <-> Blank paragraph)
                  (split (lit "Overview" ++ [10%N; 10%N] ++ lit "  " ++ [10%N; 10%N]
                            ++ lit "- one") [10%N; 10%N])
                  elements.
Proof.
  split; [discriminate|].
  apply (formatAnswer_skips_blank_paragraphs
           (lit "Overview" ++ [10%N; 10%N] ++ lit "  " ++ [10%N; 10%N] ++ lit "- one")).
  discriminate.
Defined.

Example formatAnswer_three_paragraphs :
  formatAnswer (lit "Overview" ++ [10%N; 10%N] ++ lit "  " ++ [10%N; 10%N] ++ lit "- one")
  = Blocks [Some (Paragraph (lit "Overview")); None; Some (BulletList [lit "one"])].
Proof. reflexivity. Qed.

(** The first piece of a split starts with what was already collected. *)
Lemma split_from_first sep : forall s skip cur,
  exists x rest, split_from sep skip cur s = rev (x ++ cur) :: rest.
Proof.
  induction s as [|c r IH]; intros skip cur; cbn [split_from].
  - exists [], []. reflexivity.
  - destruct skip as [|k]; [|apply IH].
    destruct (startsWith (c :: r) sep).
    + exists [], (split_from sep (length sep - 1) [] r). reflexivity.
    + destruct (IH 0 (c :: cur)) as [x [rest E]].
      exists (x ++ [c]), rest. rewrite E. now rewrite <- app_assoc.
Qed.

Lemma lines_nonempty (t : jsstring) : Trimmed t -> lines t <> [].
Proof.
  intros [[c [r [-> W]]] _]. unfold lines, split. cbn [split_from].
  assert (N10 : (10 =? c)%N = false).
  { destruct (N.eqb_spec 10 c) as [<- | ]; [discriminate W | reflexivity]. }
  unfold newline. cbn [startsWith]. rewrite N10. cbn [andb].
  destruct (split_from_first [10%N] r 0 [c]) as [x [rest E]]. rewrite E.
  rewrite rev_app_distr. cbn [rev app filter].
  replace (truthy (trim (c :: rev x))) with true; [discriminate|].
  unfold trim. rewrite (trimStart_keeps c (rev x) W).
  destruct (trimEnd_head c (rev x) W) as [r' ->]. reflexivity.
Qed.

(** X16. An element never shows an empty paragraph or an empty list: the
    text of a paragraph or of a callout is its paragraph with the white
    space around it removed, and is not empty; a bulleted or a numbered
    list has at least one item. *)
Theorem block_is_never_empty (paragraph : jsstring) (b : Block) :
  block paragraph = Some b ->
  match b with
  | Paragraph t | Callout t => t = trim paragraph /\ Trimmed t
  | BulletList items | NumberedList items => items <> []
  end.
Proof.
  unfold block. destruct (trim paragraph) as [|c r] eqn:E; cbn [truthy negb];
    [discriminate|].
  assert (T : Trimmed (c :: r)) by (rewrite <- E; apply trim_Trimmed; congruence).
  pose proof (lines_nonempty (c :: r) T) as L.
  repeat match goal with
         | |- context [if ?x then _ else _] => destruct x
         end; intros [= <-]; try (split; [reflexivity | exact T]);
    destruct (lines (c :: r)); [contradiction | discriminate | contradiction | discriminate].
Qed.

Lemma block_is_never_empty_witness :
  block (lit " - one" ++ [10%N] ++ lit "-" ++ [10%N] ++ lit "  - two ")
  = Some (BulletList [lit "one"; []; lit "  - two"])
  /\ [lit "one"; []; lit "  - two"] <> [].
Proof.
  split; [reflexivity|].
  apply (block_is_never_empty
           (lit " - one" ++ [10%N] ++ lit "-" ++ [10%N] ++ lit "  - two ")
           (BulletList [lit "one"; []; lit "  - two"])).
  reflexivity.
Defined.

End ResultDisplayFacts.
